(** * Trade Document Analyzer: the React component [App] and its handlers.

    The repository holds two revisions of one component:
    - [src/index.tsx], embedded in [Module IndexTsx];
    - the later revision (credential guard inside the handler, rejecting
      reader, empty-response check), embedded in [Module Part000].

    The component is UI state (React [useState] cells) plus one outbound
    call.  Handlers are embedded as computations in a small monad that
    threads the state cells, logs the effects on the outside world (file
    reads, the network call, the clipboard, timers) and carries the three
    ways an [async] function can end: it returns, it throws, or it awaits a
    promise that never settles. *)

From Stdlib Require Import String Ascii List Bool Arith Lia Permutation.
From Stdlib.Strings Require Import Byte.
From Stdlib Require Import DecimalString NArith.
Import ListNotations.
Open Scope string_scope.
Open Scope list_scope.

(** ** JavaScript values and helpers *)

(** The empty string ['']. *)
Definition empty : string := EmptyString.

(** Truthiness of a JS string: every string but [''] is truthy. *)
Definition truthy (s : string) : bool :=
  match s with
  | EmptyString => false
  | String _ _ => true
  end.

(** Truthiness of a [string | undefined] value. *)
Definition truthy_opt (v : option string) : bool :=
  match v with
  | Some s => truthy s
  | None => false
  end.

(** Truthiness of an object reference ([File | null | undefined]): [None]
    stands for both [null] and [undefined], which the component never tells
    apart (it only tests [!file] and [file ? .. : ..]). *)
Definition populated {A : Type} (o : option A) : bool :=
  match o with
  | Some _ => true
  | None => false
  end.

Definition dq : string := String (ascii_of_nat 34) EmptyString.
Definition nl : string := String (ascii_of_nat 10) EmptyString.
Definition comma : ascii := ascii_of_nat 44.

(** A template literal that spans several source lines. *)
Definition lines (l : list string) : string := String.concat nl l.

(** [s.split(sep)] for a one-character separator: never returns the empty
    array; [''.split(',')] is [['']]. *)
Fixpoint split (sep : ascii) (s : string) : list string :=
  match s with
  | EmptyString => [EmptyString]
  | String c r =>
      if Ascii.eqb c sep then EmptyString :: split sep r
      else match split sep r with
           | h :: t => String c h :: t
           | [] => [String c EmptyString]
           end
  end.

(** [s.includes(sub)]. *)
Fixpoint includes (s sub : string) : bool :=
  String.prefix sub s ||
  match s with
  | EmptyString => false
  | String _ r => includes r sub
  end.

(** Does a string contain the separator? *)
Fixpoint has_char (c : ascii) (s : string) : bool :=
  match s with
  | EmptyString => false
  | String d r => Ascii.eqb d c || has_char c r
  end.

(** ** Data model *)

(** A browser [File]: the fields the component (and the spec's UploadSlot)
    mention. *)
Record File : Type := mkFile
  { name : string
  ; size : nat
  ; type : string
  ; content : list byte }.

(** The three upload slots, in the order the component declares them. *)
Inductive Slot : Type := CI | PL | BL.

(** [Part] of [@google/genai], restricted to the two shapes the component
    builds.  [data] is [string | undefined]: it is element 1 of an array
    that may have a single element. *)
Inductive Part : Type :=
| text (t : string)
| inlineData (data : option string) (mimeType : string).

(** A thrown (or rejecting) value, as far as [err instanceof Error] and
    [err.message] can see it. *)
Inductive Thrown : Type :=
| ErrorObj (message : string)
| NonError.

(** How an awaited promise ends: it rejects, it resolves, or it stays
    pending (nothing in the component times an [await] out). *)
Inductive Settlement (A : Type) : Type :=
| Rejected (err : Thrown)
| Resolved (a : A)
| Pending.
Arguments Rejected {A} err.
Arguments Resolved {A} a.
Arguments Pending {A}.

(** The client object of the SDK: the promise of
    [ai.models.generateContent] rejects, resolves to a response whose
    [.text] is [string | undefined], or stays pending. *)
Record Client : Type := mkClient
  { generateContent : string -> list Part -> Settlement (option string) }.

(** [navigator.clipboard.writeText(text)]: where the Clipboard API is not
    exposed ([navigator.clipboard] is [undefined], as outside secure
    contexts) evaluating the call throws; otherwise it returns a promise,
    which the component drops. *)
Record Navigator : Type := mkNavigator
  { writeText : string -> Thrown + unit }.

(** What lies outside the component: the process environment, the SDK's
    constructor (third-party code, which may throw), and the browser's
    [FileReader] ([readAsDataURL] gives [reader.result] at [loadend]:
    the data URL, or [None] for [null] after a read error). *)
Record Env : Type := mkEnv
  { API_KEY : option string
  ; GoogleGenAI : option string -> Thrown + Client
  ; readAsDataURL : File -> option string }.

(** Callbacks handed to [setTimeout]. *)
Inductive Callback : Type :=
| ResetCopyButtonText.

(** Effects on the outside world, in program order. *)
Inductive Effect : Type :=
| FileRead (f : File)
| NetworkCall (model : string) (parts : list Part)
| ConsoleError (err : Thrown)
| ClipboardWrite (t : string)
| SetTimeout (cb : Callback) (ms : nat).

(** ** The handler monad *)

Inductive Res (A : Type) : Type :=
| Ok (a : A)
| Throw (e : Thrown)
| Hang.
Arguments Ok {A} a.
Arguments Throw {A} e.
Arguments Hang {A}.

Definition M (S A : Type) : Type := S -> Res A * S * list Effect.

Section Monad.
Context {S : Type}.

Definition ret {A} (a : A) : M S A := fun s => (Ok a, s, []).

Definition bind {A B} (m : M S A) (k : A -> M S B) : M S B :=
  fun s =>
    let '(r, s1, l1) := m s in
    match r with
    | Ok a => let '(r2, s2, l2) := k a s1 in (r2, s2, l1 ++ l2)
    | Throw e => (Throw e, s1, l1)
    | Hang => (Hang, s1, l1)
    end.

Definition get : M S S := fun s => (Ok s, s, []).
Definition modify (f : S -> S) : M S unit := fun s => (Ok tt, f s, []).
Definition emit (e : Effect) : M S unit := fun s => (Ok tt, s, [e]).
Definition throw {A} (e : Thrown) : M S A := fun s => (Throw e, s, []).
Definition never {A} : M S A := fun s => (Hang, s, []).

(** [try { body } catch (err) { handler } finally { finalizer }].  A body
    that never settles leaves both other blocks unexecuted. *)
Definition try_catch_finally (body : M S unit) (handler : Thrown -> M S unit)
    (finalizer : M S unit) : M S unit :=
  fun s =>
    let '(r, s1, l1) := body s in
    match r with
    | Ok tt => let '(r2, s2, l2) := finalizer s1 in (r2, s2, l1 ++ l2)
    | Throw e =>
        let '(r2, s2, l2) := handler e s1 in
        match r2 with
        | Ok tt => let '(r3, s3, l3) := finalizer s2 in (r3, s3, l1 ++ l2 ++ l3)
        | Throw e' =>
            let '(r3, s3, l3) := finalizer s2 in
            match r3 with
            | Ok tt => (Throw e', s3, l1 ++ l2 ++ l3)
            | other => (other, s3, l1 ++ l2 ++ l3)
            end
        | Hang => (Hang, s2, l1 ++ l2)
        end
    | Hang => (Hang, s1, l1)
    end.
End Monad.

Notation "x <- m ;; k" := (bind m (fun x => k))
  (at level 61, m at next level, right associativity).
Notation "m ;; k" := (bind m (fun _ => k))
  (at level 61, right associativity).

(** Projections of a finished run. *)
Definition outcome {S A} (x : Res A * S * list Effect) : Res A := fst (fst x).
Definition final {S A} (x : Res A * S * list Effect) : S := snd (fst x).
Definition trace {S A} (x : Res A * S * list Effect) : list Effect := snd x.

(** The network calls of a trace, and its file reads. *)
Definition network_calls (l : list Effect) : list (string * list Part) :=
  flat_map (fun e => match e with NetworkCall m p => [(m, p)] | _ => [] end) l.
Definition file_reads (l : list Effect) : list File :=
  flat_map (fun e => match e with FileRead f => [f] | _ => [] end) l.

(** [ai.models.generateContent({model, contents: [{parts}]})], awaited. *)
Definition callGenerateContent {S} (ai : Client) (model : string)
    (parts : list Part) : M S (option string) :=
  emit (NetworkCall model parts);;
  match generateContent ai model parts with
  | Rejected err => throw err
  | Resolved t => ret t
  | Pending => never
  end.

(** [(reader.result as string).split(',')[1]] *)
Definition base64_of_dataURL (url : string) : option string :=
  nth_error (split comma url) 1.

(** ** [src/index.tsx] *)

Module IndexTsx.

(** The [useState] cells of [App].  [ciFile], [plFile], [blFile] hold
    [File | null] (and [undefined] after [files[0]] of an empty list);
    [result] is declared [string] but receives [response.text], which is
    [string | undefined]. *)
Record State : Type := mkState
  { ciFile : option File
  ; plFile : option File
  ; blFile : option File
  ; loading : bool
  ; result : option string
  ; error : string
  ; copyButtonText : string }.

Definition initial : State :=
  mkState None None None false (Some empty) empty "Copy".

Definition setCiFile (f : option File) : M State unit :=
  modify (fun s => mkState f (plFile s) (blFile s) (loading s) (result s)
                     (error s) (copyButtonText s)).
Definition setPlFile (f : option File) : M State unit :=
  modify (fun s => mkState (ciFile s) f (blFile s) (loading s) (result s)
                     (error s) (copyButtonText s)).
Definition setBlFile (f : option File) : M State unit :=
  modify (fun s => mkState (ciFile s) (plFile s) f (loading s) (result s)
                     (error s) (copyButtonText s)).
Definition setLoading (b : bool) : M State unit :=
  modify (fun s => mkState (ciFile s) (plFile s) (blFile s) b (result s)
                     (error s) (copyButtonText s)).
Definition setResult (r : option string) : M State unit :=
  modify (fun s => mkState (ciFile s) (plFile s) (blFile s) (loading s) r
                     (error s) (copyButtonText s)).
Definition setError (e : string) : M State unit :=
  modify (fun s => mkState (ciFile s) (plFile s) (blFile s) (loading s)
                     (result s) e (copyButtonText s)).
Definition setCopyButtonText (t : string) : M State unit :=
  modify (fun s => mkState (ciFile s) (plFile s) (blFile s) (loading s)
                     (result s) (error s) t).

(** [useMemo(() => new GoogleGenAI({apiKey: process.env.API_KEY}), [])]
    runs during the first render: if the constructor throws, [App] does
    not mount and there is no handler to invoke. *)
Definition mount (env : Env) : Thrown + (State * Client) :=
  match GoogleGenAI env (API_KEY env) with
  | inl err => inl err
  | inr ai => inr (initial, ai)
  end.

(** [e.target.files] is [FileList | null]; [files[0]] of an empty list is
    [undefined]. *)
Definition handleFileChange (files : option (list File))
    (setter : option File -> M State unit) : M State unit :=
  match files with
  | Some fl => setter (hd_error fl);; setResult (Some empty);; setError empty
  | None => ret tt
  end.

(** The promise resolves from [onloadend] only; after a read error
    [reader.result] is [null], the callback throws inside the event
    dispatch and the promise is never settled. *)
Definition fileToGenerativePart (env : Env) (file : File) : M State Part :=
  emit (FileRead file);;
  match readAsDataURL env file with
  | Some url => ret (inlineData (base64_of_dataURL url) (type file))
  | None => never
  end.

Definition prompt : string :=
  lines
    [ "You are an expert AI assistant specializing in international trade document analysis. Your primary task is to accurately extract key information from the provided document(s) (e.g., Commercial Invoice, Packing List, Bill of Lading)."
    ; empty
    ; "**Instructions:**"
    ; "1.  Analyze all attached documents carefully."
    ; ("2.  Extract the data points listed under " ++ dq ++ "General Information" ++ dq ++ " and present them in a clean " ++ dq ++ "Key: Value" ++ dq ++ " format.")%string
    ; "3.  Extract all container details from the Bill of Lading and present them in a clear, multi-line list or table format."
    ; ("4.  If a piece of information is not available in the provided document(s), state " ++ dq ++ "Not Found" ++ dq ++ ".")%string
    ; empty
    ; "**General Information:**"
    ; "* **Total Invoice Value (USD):**"
    ; "* **Total Packages:**"
    ; "* **SAP Cargo PO:**"
    ; "* **Invoice Number:**"
    ; "* **BL/AWB Number:**"
    ; "* **Shipper:**"
    ; "* **Incoterm:**"
    ; "* **Description:**"
    ; "* **Carrier:**"
    ; "* **Vessel:**"
    ; "* **Freight Value (USD):**"
    ; "* **CBM:**"
    ; empty
    ; "**Container Details:**"
    ; "(List all containers found in the Bill of Lading below, with Container Number, Seal Number, and Container Type)"
    ; empty ].

Definition model : string := "gemini-2.5-flash".

(** [if (file) parts.push(await fileToGenerativePart(file));] *)
Definition push_if (env : Env) (file : option File) (parts : list Part)
    : M State (list Part) :=
  match file with
  | Some f => p <- fileToGenerativePart env f;; ret (parts ++ [p])
  | None => ret parts
  end.

(** [if (!ciFile && !plFile && !blFile)] *)
Definition no_file (ci pl bl : option File) : bool :=
  negb (populated ci) && negb (populated pl) && negb (populated bl).

(** The four setters between the guard and the [try]. *)
Definition begin_analysis : M State unit :=
  setLoading true;;
  setResult (Some empty);;
  setError empty;;
  setCopyButtonText "Copy".

(** The [try]/[catch]/[finally] statement of [handleAnalyze], over the
    slot values its closure captured. *)
Definition attempt (env : Env) (ai : Client) (ci pl bl : option File)
    : M State unit :=
  try_catch_finally
    (parts <- ret [text prompt];;
     parts <- push_if env ci parts;;
     parts <- push_if env pl parts;;
     parts <- push_if env bl parts;;
     response <- callGenerateContent ai model parts;;
     setResult response)
    (fun err =>
       emit (ConsoleError err);;
       setError match err with
                | ErrorObj message => message
                | NonError => "An unexpected error occurred. Please try again."
                end)
    (setLoading false).

Definition handleAnalyze (env : Env) (ai : Client) : M State unit :=
  s <- get;;
  if no_file (ciFile s) (plFile s) (blFile s) then
    setError "Please upload at least one document."
  else
    begin_analysis;;
    attempt env ai (ciFile s) (plFile s) (blFile s).

Definition runCallback (cb : Callback) : M State unit :=
  match cb with
  | ResetCopyButtonText => setCopyButtonText "Copy"
  end.

Definition handleCopy (nav : Navigator) : M State unit :=
  s <- get;;
  match result s with
  | Some (String c r) =>
      match writeText nav (String c r) with
      | inl err => throw err
      | inr _ => emit (ClipboardWrite (String c r))
      end;;
      setCopyButtonText "Copied!";;
      emit (SetTimeout ResetCopyButtonText 2000)
  | _ => ret tt
  end.

(** [const anyFileUploaded = ciFile || plFile || blFile], as a boolean. *)
Definition anyFileUploaded (s : State) : bool :=
  populated (ciFile s) || populated (plFile s) || populated (blFile s).

(** [disabled={!anyFileUploaded || loading}] on the analyze button. *)
Definition analyze_disabled (s : State) : bool :=
  negb (anyFileUploaded s) || loading s.

(** [onChange={(e) => handleFileChange(e, setXxFile)}] of each input. *)
Definition setter_of (slot : Slot) : option File -> M State unit :=
  match slot with
  | CI => setCiFile
  | PL => setPlFile
  | BL => setBlFile
  end.
Definition onChange (slot : Slot) (files : option (list File)) : M State unit :=
  handleFileChange files (setter_of slot).

(** The user picks one file per listed slot, in list order. *)
Definition select_all (picks : list (Slot * File)) (s : State) : State :=
  fold_left (fun s p => final (onChange (fst p) (Some [snd p]) s)) picks s.

(** *** The mounted component as a transition system

    Between the click that starts [handleAnalyze] and the settling of its
    awaited promises the browser may dispatch other events; the attempt
    then continues on the slot values it captured. *)
Record UI : Type := mkUI
  { cells : State
  ; in_flight : list (option File * option File * option File)
  ; timers : list Callback }.

Definition initialUI : UI := mkUI initial [] [].

Inductive Event : Type :=
| Change (slot : Slot) (files : option (list File))
| ClickAnalyze
| Settle (env : Env) (ai : Client)
| ClickCopy (nav : Navigator)
| TimerFires.

(** [Settle env ai]: the oldest attempt in flight runs its [try] statement
    as far as it goes, against what the reader and the service answer this
    time; an attempt that stalls stays in flight.  [ClickCopy nav]: a click
    on the copy button, which is rendered only with a result; a handler
    that throws leaves the cells as they are.

    [None]: the page cannot dispatch the event in this state (disabled
    or unrendered button, nothing in flight, no timer armed). *)
Definition fire (ev : Event) (u : UI) : option UI :=
  match ev with
  | Change slot files =>
      Some (mkUI (final (onChange slot files (cells u))) (in_flight u) (timers u))
  | ClickAnalyze =>
      let s := cells u in
      if analyze_disabled s then None
      else if no_file (ciFile s) (plFile s) (blFile s) then
        Some (mkUI (final (setError "Please upload at least one document." s))
                (in_flight u) (timers u))
      else
        Some (mkUI (final (begin_analysis s))
                (in_flight u ++ [(ciFile s, plFile s, blFile s)]) (timers u))
  | Settle env ai =>
      match in_flight u with
      | (ci, pl, bl) :: rest =>
          let run := attempt env ai ci pl bl (cells u) in
          match outcome run with
          | Hang => Some (mkUI (final run) (in_flight u) (timers u))
          | _ => Some (mkUI (final run) rest (timers u))
          end
      | [] => None
      end
  | ClickCopy nav =>
      if truthy_opt (result (cells u)) then
        let run := handleCopy nav (cells u) in
        Some (mkUI (final run) (in_flight u)
                (timers u ++ flat_map (fun e => match e with
                                                 | SetTimeout cb _ => [cb]
                                                 | _ => []
                                                 end) (trace run)))
      else None
  | TimerFires =>
      match timers u with
      | cb :: rest => Some (mkUI (final (runCallback cb (cells u))) (in_flight u) rest)
      | [] => None
      end
  end.

Fixpoint fire_all (evs : list Event) (u : UI) : option UI :=
  match evs with
  | [] => Some u
  | ev :: rest =>
      match fire ev u with
      | Some u' => fire_all rest u'
      | None => None
      end
  end.

Definition reachable (u : UI) : Prop :=
  exists evs, fire_all evs initialUI = Some u.

End IndexTsx.

(** ** The later revision of the component *)

Module Part000.

Record State : Type := mkState
  { ciFile : option File
  ; plFile : option File
  ; blFile : option File
  ; loading : bool
  ; statusMessage : string
  ; result : string
  ; error : string
  ; copyButtonText : string }.

Definition initial : State :=
  mkState None None None false empty empty empty "Copy".

Definition setCiFile (f : option File) : M State unit :=
  modify (fun s => mkState f (plFile s) (blFile s) (loading s)
                     (statusMessage s) (result s) (error s) (copyButtonText s)).
Definition setPlFile (f : option File) : M State unit :=
  modify (fun s => mkState (ciFile s) f (blFile s) (loading s)
                     (statusMessage s) (result s) (error s) (copyButtonText s)).
Definition setBlFile (f : option File) : M State unit :=
  modify (fun s => mkState (ciFile s) (plFile s) f (loading s)
                     (statusMessage s) (result s) (error s) (copyButtonText s)).
Definition setLoading (b : bool) : M State unit :=
  modify (fun s => mkState (ciFile s) (plFile s) (blFile s) b
                     (statusMessage s) (result s) (error s) (copyButtonText s)).
Definition setStatusMessage (m : string) : M State unit :=
  modify (fun s => mkState (ciFile s) (plFile s) (blFile s) (loading s)
                     m (result s) (error s) (copyButtonText s)).
Definition setResult (r : string) : M State unit :=
  modify (fun s => mkState (ciFile s) (plFile s) (blFile s) (loading s)
                     (statusMessage s) r (error s) (copyButtonText s)).
Definition setError (e : string) : M State unit :=
  modify (fun s => mkState (ciFile s) (plFile s) (blFile s) (loading s)
                     (statusMessage s) (result s) e (copyButtonText s)).
Definition setCopyButtonText (t : string) : M State unit :=
  modify (fun s => mkState (ciFile s) (plFile s) (blFile s) (loading s)
                     (statusMessage s) (result s) (error s) t).

(** [if (e.target.files && e.target.files.length > 0)] *)
Definition handleFileChange (files : option (list File))
    (setter : option File -> M State unit) : M State unit :=
  match files with
  | Some fl =>
      if (0 <? List.length fl)%nat then
        setter (hd_error fl);; setResult empty;; setError empty
      else ret tt
  | None => ret tt
  end.

(** [reader.onerror = reject]: a read error rejects the promise with the
    [ProgressEvent], which is not an [Error]. *)
Definition fileToGenerativePart (env : Env) (file : File) : M State Part :=
  emit (FileRead file);;
  match readAsDataURL env file with
  | Some url => ret (inlineData (base64_of_dataURL url) (type file))
  | None => throw NonError
  end.

Definition prompt : string :=
  lines
    [ "You are an expert AI assistant specializing in international trade document analysis. "
    ; "Your task is to extract key data from the uploaded files (Commercial Invoice, Packing List, or Bill of Lading)."
    ; empty
    ; "**Instructions:**"
    ; ("1. Extract the following " ++ dq ++ "General Information" ++ dq ++ " fields in " ++ dq ++ "Key: Value" ++ dq ++ " format.")%string
    ; "2. If multiple documents are provided, cross-reference them for accuracy."
    ; "3. Extract all container details from the Bill of Lading into a formatted table or clear list."
    ; ("4. If any field is missing, strictly write " ++ dq ++ "Not Found" ++ dq ++ ".")%string
    ; empty
    ; "**Extraction Fields:**"
    ; "- Total Invoice Value (USD)"
    ; "- Total Packages"
    ; "- SAP Cargo PO"
    ; "- Invoice Number"
    ; "- BL/AWB Number"
    ; "- Shipper"
    ; "- Incoterm"
    ; "- Description of Goods"
    ; "- Carrier"
    ; "- Vessel/Voyage"
    ; "- Freight Value (USD)"
    ; "- CBM (Total Volume)"
    ; empty
    ; "**Container Details:**"
    ; "Extract: Container Number, Seal Number, and Container Type." ].

Definition model : string := "gemini-3-flash-preview".

Definition missing_key_message : string :=
  "API Key is missing. Please check your environment configuration.".
Definition empty_response_message : string :=
  "The model returned an empty response. Please try again with clearer documents.".
Definition unexpected_message : string := "An unexpected error occurred.".
Definition configuration_error_message : string :=
  "Configuration Error: The API Key is not being correctly passed to the application. Check your Vercel Environment Variables.".
Definition no_file_message : string :=
  "Please upload at least one document to begin analysis.".

Definition push_if (env : Env) (file : option File) (parts : list Part)
    : M State (list Part) :=
  match file with
  | Some f => p <- fileToGenerativePart env f;; ret (parts ++ [p])
  | None => ret parts
  end.

Definition no_file (ci pl bl : option File) : bool :=
  negb (populated ci) && negb (populated pl) && negb (populated bl).

(** The five setters between the guard and the [try]. *)
Definition begin_analysis : M State unit :=
  setLoading true;;
  setResult empty;;
  setError empty;;
  setCopyButtonText "Copy";;
  setStatusMessage "Preparing documents...".

(** The [catch] block's choice of message. *)
Definition message_of (err : Thrown) : string :=
  match err with
  | ErrorObj message =>
      if includes message "API Key must be set"
      then configuration_error_message
      else message
  | NonError => unexpected_message
  end.

(** The [try]/[catch]/[finally] statement of [handleAnalyze], over the
    slot values its closure captured. *)
Definition attempt (env : Env) (ci pl bl : option File) : M State unit :=
  try_catch_finally
    ((if negb (truthy_opt (API_KEY env))
      then throw (ErrorObj missing_key_message)
      else ret tt);;
     ai <- match GoogleGenAI env (API_KEY env) with
           | inl err => throw err
           | inr ai => ret ai
           end;;
     setStatusMessage "Reading file data...";;
     parts <- ret [text prompt];;
     parts <- push_if env ci parts;;
     parts <- push_if env pl parts;;
     parts <- push_if env bl parts;;
     setStatusMessage "Analyzing documents with Gemini...";;
     response <- callGenerateContent ai model parts;;
     match response with
     | Some (String c r) => setResult (String c r)
     | _ => throw (ErrorObj empty_response_message)
     end)
    (fun err => emit (ConsoleError err);; setError (message_of err))
    (setLoading false;; setStatusMessage empty).

Definition handleAnalyze (env : Env) : M State unit :=
  s <- get;;
  if no_file (ciFile s) (plFile s) (blFile s) then
    setError no_file_message
  else
    begin_analysis;;
    attempt env (ciFile s) (plFile s) (blFile s).

Definition runCallback (cb : Callback) : M State unit :=
  match cb with
  | ResetCopyButtonText => setCopyButtonText "Copy"
  end.

Definition handleCopy (nav : Navigator) : M State unit :=
  s <- get;;
  if negb (truthy (result s)) then ret tt
  else
    match writeText nav (result s) with
    | inl err => throw err
    | inr _ => emit (ClipboardWrite (result s))
    end;;
    setCopyButtonText "Copied!";;
    emit (SetTimeout ResetCopyButtonText 2000).

Definition anyFileUploaded (s : State) : bool :=
  populated (ciFile s) || populated (plFile s) || populated (blFile s).

Definition analyze_disabled (s : State) : bool :=
  negb (anyFileUploaded s) || loading s.

Definition setter_of (slot : Slot) : option File -> M State unit :=
  match slot with
  | CI => setCiFile
  | PL => setPlFile
  | BL => setBlFile
  end.
Definition onChange (slot : Slot) (files : option (list File)) : M State unit :=
  handleFileChange files (setter_of slot).

(** The user picks one file per listed slot, in list order. *)
Definition select_all (picks : list (Slot * File)) (s : State) : State :=
  fold_left (fun s p => final (onChange (fst p) (Some [snd p]) s)) picks s.

(** *** The mounted component as a transition system *)
Record UI : Type := mkUI
  { cells : State
  ; in_flight : list (option File * option File * option File)
  ; timers : list Callback }.

Definition initialUI : UI := mkUI initial [] [].

Inductive Event : Type :=
| Change (slot : Slot) (files : option (list File))
| ClickAnalyze
| Settle (env : Env)
| ClickCopy (nav : Navigator)
| TimerFires.

(** As in [src/index.tsx]; the client is built inside the attempt.  The
    click step stops after the setters that precede the [try]; what the
    [try] does before its first [await] (the credential check, the client,
    the second status text) is run by [Settle], so a state in flight here
    carries the first status text where the page already shows the second
    one.  No other cell differs. *)
Definition fire (ev : Event) (u : UI) : option UI :=
  match ev with
  | Change slot files =>
      Some (mkUI (final (onChange slot files (cells u))) (in_flight u) (timers u))
  | ClickAnalyze =>
      let s := cells u in
      if analyze_disabled s then None
      else if no_file (ciFile s) (plFile s) (blFile s) then
        Some (mkUI (final (setError no_file_message s)) (in_flight u) (timers u))
      else
        Some (mkUI (final (begin_analysis s))
                (in_flight u ++ [(ciFile s, plFile s, blFile s)]) (timers u))
  | Settle env =>
      match in_flight u with
      | (ci, pl, bl) :: rest =>
          let run := attempt env ci pl bl (cells u) in
          match outcome run with
          | Hang => Some (mkUI (final run) (in_flight u) (timers u))
          | _ => Some (mkUI (final run) rest (timers u))
          end
      | [] => None
      end
  | ClickCopy nav =>
      if truthy (result (cells u)) then
        let run := handleCopy nav (cells u) in
        Some (mkUI (final run) (in_flight u)
                (timers u ++ flat_map (fun e => match e with
                                                 | SetTimeout cb _ => [cb]
                                                 | _ => []
                                                 end) (trace run)))
      else None
  | TimerFires =>
      match timers u with
      | cb :: rest => Some (mkUI (final (runCallback cb (cells u))) (in_flight u) rest)
      | [] => None
      end
  end.

Fixpoint fire_all (evs : list Event) (u : UI) : option UI :=
  match evs with
  | [] => Some u
  | ev :: rest =>
      match fire ev u with
      | Some u' => fire_all rest u'
      | None => None
      end
  end.

Definition reachable (u : UI) : Prop :=
  exists evs, fire_all evs initialUI = Some u.

End Part000.

(** ** The request the specification describes *)

(** The files of the populated slots among a list of slots, in list order. *)
Definition present (slots : list (option File)) : list File :=
  flat_map (fun o => match o with Some f => [f] | None => [] end) slots.

(** An encoded part: base64 text paired with the file's MIME type. *)
Definition encoded_part (b64 : File -> string) (f : File) : Part :=
  inlineData (Some (b64 f)) (type f).

(** The instruction first, then one encoded part per populated slot in the
    order invoice, packing list, bill of lading. *)
Definition spec_request (instruction : string) (b64 : File -> string)
    (invoice packing lading : option File) : list Part :=
  text instruction :: map (encoded_part b64) (present [invoice; packing; lading]).

(** The reader hands back a data URL for [f] whose payload is [b64 f]:
    a header without comma, a comma, and a payload without comma. *)
Definition reads_as (env : Env) (b64 : File -> string) (f : File) : Prop :=
  exists header,
    has_char comma header = false /\
    has_char comma (b64 f) = false /\
    readAsDataURL env f = Some (header ++ String comma (b64 f))%string.

(** ** Concrete inputs *)

Module Sample.

Definition invoice : File :=
  mkFile "invoice.pdf" 4 "application/pdf" [x25; x50; x44; x46].
Definition packing : File :=
  mkFile "packing.png" 3 "image/png" [x89; x50; x4e].
Definition lading : File :=
  mkFile "lading.jpg" 3 "image/jpeg" [xff; xd8; xff].

(** Base64 of the sample contents. *)
Definition b64 (f : File) : string :=
  if (name f =? "invoice.pdf")%string then "JVBERg=="
  else if (name f =? "packing.png")%string then "iVBO"
  else "/9j/".

Definition dataURL (f : File) : string :=
  ("data:" ++ type f ++ ";base64" ++ String comma (b64 f))%string.

Definition reader (f : File) : option string := Some (dataURL f).
Definition broken_reader (f : File) : option string := None.

Definition answer : string := "Invoice Number: 42".

Definition client_ok : Client := mkClient (fun _ _ => Resolved (Some answer)).
Definition client_empty : Client := mkClient (fun _ _ => Resolved (Some empty)).
Definition client_undefined : Client := mkClient (fun _ _ => Resolved None).
Definition client_offline : Client :=
  mkClient (fun _ _ => Rejected (ErrorObj "Failed to fetch")).

(** The browser build of the SDK refuses a missing key. *)
Definition sdk (ai : Client) (apiKey : option string) : Thrown + Client :=
  match apiKey with
  | Some _ => inr ai
  | None => inl (ErrorObj "An API Key must be set when running in a browser")
  end.

Definition env_ok : Env := mkEnv (Some "secret") (sdk client_ok) reader.
Definition env_no_key : Env := mkEnv None (sdk client_ok) reader.
Definition env_empty : Env := mkEnv (Some "secret") (sdk client_empty) reader.
Definition env_undefined : Env := mkEnv (Some "secret") (sdk client_undefined) reader.
Definition env_offline : Env := mkEnv (Some "secret") (sdk client_offline) reader.
Definition env_unreadable : Env := mkEnv (Some "secret") (sdk client_ok) broken_reader.

(** States with only the invoice slot populated, an old result and an old
    error on screen. *)
Definition v1_invoice_only : IndexTsx.State :=
  IndexTsx.mkState (Some invoice) None None false (Some "old result") "old error" "Copy".
Definition v2_invoice_only : Part000.State :=
  Part000.mkState (Some invoice) None None false empty "old result" "old error" "Copy".

(** States with no slot populated and an old result on screen. *)
Definition v1_no_file : IndexTsx.State :=
  IndexTsx.mkState None None None false (Some "old result") empty "Copied!".
Definition v2_no_file : Part000.State :=
  Part000.mkState None None None false empty "old result" empty "Copied!".

(** States with nothing on screen. *)
Definition v1_blank : IndexTsx.State :=
  IndexTsx.mkState (Some invoice) None (Some lading) false (Some empty) empty "Copy".
Definition v1_undefined_result : IndexTsx.State :=
  IndexTsx.mkState (Some invoice) None None false None empty "Copy".
Definition v2_blank : Part000.State :=
  Part000.mkState (Some invoice) None (Some lading) false empty empty empty "Copy".

(** The same two picks in the two orders. *)
Definition lading_first : list (Slot * File) := [(BL, lading); (CI, invoice)].
Definition invoice_first : list (Slot * File) := [(CI, invoice); (BL, lading)].

(** The mounted component right after a click on the analyze button with
    the invoice slot populated. *)
Definition v1_busy : IndexTsx.UI :=
  IndexTsx.mkUI
    (IndexTsx.mkState (Some invoice) None None true (Some empty) empty "Copy")
    [(Some invoice, None, None)] [].
Definition v2_busy : Part000.UI :=
  Part000.mkUI
    (Part000.mkState (Some invoice) None None true "Preparing documents..."
       empty empty "Copy")
    [(Some invoice, None, None)] [].

End Sample.

(** ** The invariant of the transition system *)

(** The invariant of the mounted component: nothing is in flight, or one
    attempt is and the loading flag is on. *)
Definition v1_one_at_a_time (u : IndexTsx.UI) : Prop :=
  IndexTsx.in_flight u = [] \/
  (exists r, IndexTsx.in_flight u = [r]) /\ IndexTsx.loading (IndexTsx.cells u) = true.

Definition v2_one_at_a_time (u : Part000.UI) : Prop :=
  Part000.in_flight u = [] \/
  (exists r, Part000.in_flight u = [r]) /\ Part000.loading (Part000.cells u) = true.

(** ** What the component renders *)

Definition string_of_nat (n : nat) : string :=
  NilZero.string_of_uint (Nat.to_uint n).

(** [x.toFixed(1)] for [x = num / den] with [den > 0], when the double
    holds [x] exactly (here [file.size / 1024], a division by a power of
    two of an integer below [2^53]): the integer [n] for which [n / 10] is
    closest to [x], the larger one on a tie, printed with the point before
    its last digit. *)
Definition toFixed1_tenths (num den : nat) : nat :=
  (2 * 10 * num + den) / (2 * den).

Definition toFixed1 (num den : nat) : string :=
  (string_of_nat (toFixed1_tenths num den / 10) ++ "." ++
   string_of_nat (toFixed1_tenths num den mod 10))%string.

(** The JSX of [src/index.tsx], reduced to what depends on the state. *)
Module IndexTsxView.

(** [FileInput]: the two labels and the [input] of one slot.  [selected]
    is the [file-selected] class; [body] lists the texts inside the
    clickable label. *)
Record FileInputView : Type := mkFileInputView
  { caption : string
  ; input_id : string
  ; selected : bool
  ; body : list string }.

Definition FileInput (label : string) (file : option File) (id : string)
    : FileInputView :=
  match file with
  | Some f => mkFileInputView label id true [name f]
  | None => mkFileInputView label id false ["Click to upload"]
  end.

(** The results section: the copy button's text and the [pre] element. *)
Record ResultsView : Type := mkResultsView
  { copy_label : string
  ; shown : string }.

Record View : Type := mkView
  { inputs : list FileInputView
  ; button_disabled : bool
  ; spinner : bool
  ; button_text : string
  ; alert : option string
  ; results : option ResultsView }.

(** The element [App] returns for the current cells. *)
Definition App (s : IndexTsx.State) : View :=
  mkView
    [ FileInput "Commercial Invoice (CI)" (IndexTsx.ciFile s) "ci-file"
    ; FileInput "Packing List (PL)" (IndexTsx.plFile s) "pl-file"
    ; FileInput "Bill of Lading (BL)" (IndexTsx.blFile s) "bl-file" ]
    (negb (IndexTsx.anyFileUploaded s) || IndexTsx.loading s)
    (IndexTsx.loading s)
    (if IndexTsx.loading s then "Analyzing..." else "Analyze Documents")
    (if truthy (IndexTsx.error s) then Some (IndexTsx.error s) else None)
    (match IndexTsx.result s with
     | Some (String c r) =>
         Some (mkResultsView (IndexTsx.copyButtonText s) (String c r))
     | _ => None
     end).

End IndexTsxView.

(** The JSX of the later revision. *)
Module Part000View.

Record FileInputView : Type := mkFileInputView
  { caption : string
  ; input_id : string
  ; selected : bool
  ; body : list string }.

(** [(file.size / 1024).toFixed(1)] followed by [ KB]. *)
Definition size_text (f : File) : string :=
  (toFixed1 (size f) 1024 ++ " KB")%string.

Definition FileInput (label : string) (file : option File) (id : string)
    : FileInputView :=
  match file with
  | Some f => mkFileInputView label id true [name f; size_text f]
  | None => mkFileInputView label id false ["Upload File"]
  end.

(** [check_icon]: the copy button draws the check mark
    ([copyButtonText === 'Copied!']) instead of the clipboard. *)
Record ResultsView : Type := mkResultsView
  { check_icon : bool
  ; copy_label : string
  ; shown : string }.

Record View : Type := mkView
  { inputs : list FileInputView
  ; button_disabled : bool
  ; spinner : bool
  ; button_text : string
  ; alert : option string
  ; results : option ResultsView }.

Definition App (s : Part000.State) : View :=
  mkView
    [ FileInput "Commercial Invoice" (Part000.ciFile s) "ci-file"
    ; FileInput "Packing List" (Part000.plFile s) "pl-file"
    ; FileInput "Bill of Lading" (Part000.blFile s) "bl-file" ]
    (negb (Part000.anyFileUploaded s) || Part000.loading s)
    (Part000.loading s)
    (if Part000.loading s
     then (if truthy (Part000.statusMessage s)
           then Part000.statusMessage s else "Analyzing...")
     else "Start Extraction")
    (if truthy (Part000.error s) then Some (Part000.error s) else None)
    (if truthy (Part000.result s)
     then Some (mkResultsView (Part000.copyButtonText s =? "Copied!")%string
                  (Part000.copyButtonText s) (Part000.result s))
     else None).

End Part000View.

(** The place of a slot among the rendered inputs. *)
Definition slot_index (slot : Slot) : nat :=
  match slot with
  | CI => 0
  | PL => 1
  | BL => 2
  end.

(** ** What the screen keeps true *)

(** The copy label is one of its two texts, and the confirmation is only
    up while a timer that reverts it is armed. *)
Definition v1_label_ok (u : IndexTsx.UI) : Prop :=
  IndexTsx.copyButtonText (IndexTsx.cells u) = "Copy" \/
  (IndexTsx.copyButtonText (IndexTsx.cells u) = "Copied!" /\ IndexTsx.timers u <> []).

Definition v2_label_ok (u : Part000.UI) : Prop :=
  Part000.copyButtonText (Part000.cells u) = "Copy" \/
  (Part000.copyButtonText (Part000.cells u) = "Copied!" /\ Part000.timers u <> []).

(** A result and an error are never on screen together, and both cells
    are clear while an attempt is in flight. *)
Definition v1_screen_ok (u : IndexTsx.UI) : Prop :=
  (truthy_opt (IndexTsx.result (IndexTsx.cells u)) = false \/
   IndexTsx.error (IndexTsx.cells u) = empty) /\
  (IndexTsx.in_flight u <> [] ->
   IndexTsx.result (IndexTsx.cells u) = Some empty /\
   IndexTsx.error (IndexTsx.cells u) = empty).

Definition v2_screen_ok (u : Part000.UI) : Prop :=
  (Part000.result (Part000.cells u) = empty \/
   Part000.error (Part000.cells u) = empty) /\
  (Part000.in_flight u <> [] ->
   Part000.result (Part000.cells u) = empty /\
   Part000.error (Part000.cells u) = empty) /\
  (Part000.loading (Part000.cells u) = false ->
   Part000.statusMessage (Part000.cells u) = empty).

(** ** Further effects and inputs *)

(** The effects [handleAnalyze] may have: reading a file, calling the
    service, logging to the console. *)
Definition analysis_effect (e : Effect) : Prop :=
  match e with
  | FileRead _ | NetworkCall _ _ | ConsoleError _ => True
  | ClipboardWrite _ | SetTimeout _ _ => False
  end.

(** Additional concrete inputs. *)
Module Sample2.

(** The invoice slot populated, a stale confirmation label and a stale
    error on screen, loading left on. *)
Definition v1_invoice_stale : IndexTsx.State :=
  IndexTsx.mkState (Some Sample.invoice) None None true None "stale" "Copied!".
Definition v2_invoice_stale : Part000.State :=
  Part000.mkState (Some Sample.invoice) None None true "stale" empty "stale" "Copied!".

(** An SDK whose constructor refuses every key. *)
Definition env_sdk_rejects : Env :=
  mkEnv (Some "secret")
    (fun _ => inl (ErrorObj "An API Key must be set when running in a browser"))
    Sample.reader.

(** A reader that fails on the packing list only. *)
Definition env_packing_unreadable : Env :=
  mkEnv (Some "secret") (Sample.sdk Sample.client_ok)
    (fun f => if (name f =? "packing.png")%string then None else Sample.reader f).

(** A reader whose data URL has no comma (an empty payload). *)
Definition env_bare_url : Env :=
  mkEnv (Some "secret") (Sample.sdk Sample.client_ok) (fun _ => Some "data:").

Definition v1_invoice_and_packing : IndexTsx.State :=
  IndexTsx.mkState (Some Sample.invoice) (Some Sample.packing) None false
    (Some empty) empty "Copy".
Definition v2_invoice_and_packing : Part000.State :=
  Part000.mkState (Some Sample.invoice) (Some Sample.packing) None false
    empty empty empty "Copy".

(** A file of exactly two kibibytes and one of a quarter kibibyte. *)
Definition two_kib : File := mkFile "scan.pdf" 2048 "application/pdf" [].
Definition quarter_kib : File := mkFile "stamp.png" 256 "image/png" [].

(** The mounted component with an answer on screen and the confirmation
    label up. *)
Definition v1_copied : IndexTsx.UI :=
  IndexTsx.mkUI
    (IndexTsx.mkState (Some Sample.invoice) None None false (Some Sample.answer)
       empty "Copied!")
    [] [ResetCopyButtonText].
Definition v2_copied : Part000.UI :=
  Part000.mkUI
    (Part000.mkState (Some Sample.invoice) None None false empty Sample.answer
       empty "Copied!")
    [] [ResetCopyButtonText].

(** The mounted component with the invoice selected and nothing else. *)
Definition v1_ready : IndexTsx.UI :=
  IndexTsx.mkUI
    (IndexTsx.mkState (Some Sample.invoice) None None false (Some empty) empty "Copy")
    [] [].
Definition v2_ready : Part000.UI :=
  Part000.mkUI
    (Part000.mkState (Some Sample.invoice) None None false empty empty empty "Copy")
    [] [].

(** A service that never answers. *)
Definition client_pending : Client := mkClient (fun _ _ => Pending).
Definition env_pending : Env :=
  mkEnv (Some "secret") (Sample.sdk client_pending) Sample.reader.

(** A browser that exposes the Clipboard API, and one that does not. *)
Definition navigator : Navigator := mkNavigator (fun _ => inr tt).
Definition navigator_without_clipboard : Navigator :=
  mkNavigator
    (fun _ => inl (ErrorObj "Cannot read properties of undefined (reading 'writeText')")).

(** The credential set to the empty string, and a service that refuses
    the key. *)
Definition client_key_refused : Client :=
  mkClient (fun _ _ => Rejected (ErrorObj "API key not valid. Please pass a valid API key.")).
Definition env_empty_key : Env :=
  mkEnv (Some empty) (Sample.sdk client_key_refused) Sample.reader.

End Sample2.

(** * Properties *)

(** ** String helpers *)

Lemma split_nonempty (sep : ascii) (s : string) : split sep s <> [].
Proof.
  induction s as [|c r IH]; simpl; [discriminate|].
  destruct (Ascii.eqb c sep); [discriminate|].
  destruct (split sep r); [contradiction | discriminate].
Qed.

Lemma split_no_separator (sep : ascii) (s : string) :
  has_char sep s = false -> split sep s = [s].
Proof.
  induction s as [|c r IH]; simpl; intros H; [reflexivity|].
  apply orb_false_iff in H as [Hc Hr].
  rewrite Hc, (IH Hr). reflexivity.
Qed.

Lemma split_at_first_separator (sep : ascii) (h p : string) :
  has_char sep h = false ->
  split sep (h ++ String sep p)%string = h :: split sep p.
Proof.
  induction h as [|c r IH]; simpl; intros H.
  - rewrite Ascii.eqb_refl. reflexivity.
  - apply orb_false_iff in H as [Hc Hr].
    rewrite Hc, (IH Hr). reflexivity.
Qed.

(** Element 1 of the split data URL is the payload after the comma. *)
Lemma base64_of_dataURL_payload (h p : string) :
  has_char comma h = false ->
  has_char comma p = false ->
  base64_of_dataURL (h ++ String comma p)%string = Some p.
Proof.
  intros Hh Hp. unfold base64_of_dataURL.
  rewrite (split_at_first_separator _ _ _ Hh), (split_no_separator _ _ Hp).
  reflexivity.
Qed.

(** A data URL without any comma has no element 1. *)
Lemma base64_of_dataURL_undefined (url : string) :
  has_char comma url = false -> base64_of_dataURL url = None.
Proof.
  intros H. unfold base64_of_dataURL.
  rewrite (split_no_separator _ _ H). reflexivity.
Qed.

(** ** Rejected trigger: no slot populated *)

(** C4. Triggering the analysis while no slot is populated sets the
    user-input error message (the text of each revision, both starting with
    "Please upload at least one document"), and the handler returns with an
    empty effect trace: no network call and no file read. *)
Theorem analyze_without_file_is_rejected
    (env : Env) (ai : Client) (s1 : IndexTsx.State) (s2 : Part000.State) :
  IndexTsx.anyFileUploaded s1 = false ->
  Part000.anyFileUploaded s2 = false ->
  let run1 := IndexTsx.handleAnalyze env ai s1 in
  let run2 := Part000.handleAnalyze env s2 in
  (outcome run1 = Ok tt /\
   IndexTsx.error (final run1) = "Please upload at least one document." /\
   trace run1 = [] /\ network_calls (trace run1) = [] /\ file_reads (trace run1) = []) /\
  (outcome run2 = Ok tt /\
   Part000.error (final run2) = "Please upload at least one document to begin analysis." /\
   trace run2 = [] /\ network_calls (trace run2) = [] /\ file_reads (trace run2) = []) /\
  String.prefix "Please upload at least one document" (IndexTsx.error (final run1)) = true /\
  String.prefix "Please upload at least one document" (Part000.error (final run2)) = true.
Proof.
  intros H1 H2.
  destruct s1 as [ci1 pl1 bl1 ld1 r1 e1 c1], s2 as [ci2 pl2 bl2 ld2 sm2 r2 e2 c2].
  unfold IndexTsx.anyFileUploaded, Part000.anyFileUploaded in *; simpl in *.
  destruct ci1, pl1, bl1; try discriminate.
  destruct ci2, pl2, bl2; try discriminate.
  repeat split.
Qed.

Lemma analyze_without_file_is_rejected_witness :
  IndexTsx.error (final (IndexTsx.handleAnalyze Sample.env_ok Sample.client_ok
                           Sample.v1_no_file))
    = "Please upload at least one document." /\
  Part000.error (final (Part000.handleAnalyze Sample.env_ok Sample.v2_no_file))
    = "Please upload at least one document to begin analysis." /\
  trace (IndexTsx.handleAnalyze Sample.env_ok Sample.client_ok Sample.v1_no_file) = [] /\
  trace (Part000.handleAnalyze Sample.env_ok Sample.v2_no_file) = [].
Proof.
  pose proof (analyze_without_file_is_rejected Sample.env_ok Sample.client_ok
                Sample.v1_no_file Sample.v2_no_file eq_refl eq_refl) as H.
  cbv zeta in H.
  destruct H as [[_ [E1 [T1 _]]] [[_ [E2 [T2 _]]] _]].
  exact (conj E1 (conj E2 (conj T1 T2))).
Defined.

(** C10. On that rejection path only the error cell is written: the three
    slots, the loading flag, the copy-button label and a result already on
    screen (and, in the later revision, the status message) keep their
    values; in particular an old result is not cleared. *)
Theorem analyze_without_file_writes_only_error
    (env : Env) (ai : Client) (s1 : IndexTsx.State) (s2 : Part000.State) :
  IndexTsx.anyFileUploaded s1 = false ->
  Part000.anyFileUploaded s2 = false ->
  final (IndexTsx.handleAnalyze env ai s1) =
    IndexTsx.mkState (IndexTsx.ciFile s1) (IndexTsx.plFile s1) (IndexTsx.blFile s1)
      (IndexTsx.loading s1) (IndexTsx.result s1)
      "Please upload at least one document." (IndexTsx.copyButtonText s1) /\
  final (Part000.handleAnalyze env s2) =
    Part000.mkState (Part000.ciFile s2) (Part000.plFile s2) (Part000.blFile s2)
      (Part000.loading s2) (Part000.statusMessage s2) (Part000.result s2)
      "Please upload at least one document to begin analysis."
      (Part000.copyButtonText s2).
Proof.
  intros H1 H2.
  destruct s1 as [ci1 pl1 bl1 ld1 r1 e1 c1], s2 as [ci2 pl2 bl2 ld2 sm2 r2 e2 c2].
  unfold IndexTsx.anyFileUploaded, Part000.anyFileUploaded in *; simpl in *.
  destruct ci1, pl1, bl1; try discriminate.
  destruct ci2, pl2, bl2; try discriminate.
  split; reflexivity.
Qed.

Lemma analyze_without_file_writes_only_error_witness :
  IndexTsx.result (final (IndexTsx.handleAnalyze Sample.env_ok Sample.client_ok
                            Sample.v1_no_file)) = Some "old result" /\
  Part000.result (final (Part000.handleAnalyze Sample.env_ok Sample.v2_no_file))
    = "old result" /\
  Part000.copyButtonText (final (Part000.handleAnalyze Sample.env_ok Sample.v2_no_file))
    = "Copied!".
Proof.
  destruct (analyze_without_file_writes_only_error Sample.env_ok Sample.client_ok
              Sample.v1_no_file Sample.v2_no_file eq_refl eq_refl) as [E1 E2].
  rewrite E1, E2. repeat split.
Defined.

(** ** File selection *)

(** C5. When a file is selected in any of the three slots (the change
    event carries a non-empty file list), the handler leaves both the
    displayed result and the displayed error empty, whatever they were, and
    the slot holds the first selected file. *)
Theorem selecting_a_file_clears_result_and_error
    (slot : Slot) (files : option (list File)) (f : File) (rest : list File)
    (s1 : IndexTsx.State) (s2 : Part000.State) :
  files = Some (f :: rest) ->
  let s1' := final (IndexTsx.onChange slot files s1) in
  let s2' := final (Part000.onChange slot files s2) in
  (IndexTsx.result s1' = Some empty /\ IndexTsx.error s1' = empty) /\
  (Part000.result s2' = empty /\ Part000.error s2' = empty) /\
  (match slot with
   | CI => IndexTsx.ciFile s1' = Some f /\ Part000.ciFile s2' = Some f
   | PL => IndexTsx.plFile s1' = Some f /\ Part000.plFile s2' = Some f
   | BL => IndexTsx.blFile s1' = Some f /\ Part000.blFile s2' = Some f
   end).
Proof.
  intros ->. destruct slot; cbn; repeat split.
Qed.

Lemma selecting_a_file_clears_result_and_error_witness :
  IndexTsx.result (final (IndexTsx.onChange PL (Some [Sample.packing])
                            Sample.v1_invoice_only)) = Some empty /\
  IndexTsx.error (final (IndexTsx.onChange PL (Some [Sample.packing])
                           Sample.v1_invoice_only)) = empty /\
  Part000.result (final (Part000.onChange PL (Some [Sample.packing])
                           Sample.v2_invoice_only)) = empty /\
  Part000.error (final (Part000.onChange PL (Some [Sample.packing])
                          Sample.v2_invoice_only)) = empty.
Proof.
  destruct (selecting_a_file_clears_result_and_error PL (Some [Sample.packing])
              Sample.packing [] Sample.v1_invoice_only Sample.v2_invoice_only eq_refl)
    as [[R1 E1] [[R2 E2] _]].
  exact (conj R1 (conj E1 (conj R2 E2))).
Defined.

(** A change event without a file list ([files] is [null]) does nothing in
    either revision. *)
Lemma change_without_file_list (slot : Slot) (s1 : IndexTsx.State) (s2 : Part000.State) :
  IndexTsx.onChange slot None s1 = (Ok tt, s1, []) /\
  Part000.onChange slot None s2 = (Ok tt, s2, []).
Proof. split; reflexivity. Qed.

(** A change event with an empty file list (the picker was dismissed): the
    later revision guards on [files.length > 0] and does nothing, while
    [src/index.tsx] stores [undefined] in the slot and clears both cells. *)
Lemma change_with_empty_file_list (slot : Slot) (s1 : IndexTsx.State) (s2 : Part000.State) :
  Part000.onChange slot (Some []) s2 = (Ok tt, s2, []) /\
  IndexTsx.result (final (IndexTsx.onChange slot (Some []) s1)) = Some empty /\
  IndexTsx.error (final (IndexTsx.onChange slot (Some []) s1)) = empty /\
  match slot with
  | CI => IndexTsx.ciFile (final (IndexTsx.onChange slot (Some []) s1)) = None
  | PL => IndexTsx.plFile (final (IndexTsx.onChange slot (Some []) s1)) = None
  | BL => IndexTsx.blFile (final (IndexTsx.onChange slot (Some []) s1)) = None
  end.
Proof. destruct slot; cbn; repeat split. Qed.

(** ** Copy to clipboard *)




(** C9. Invoked while the displayed result is empty (or [undefined] in
    [src/index.tsx]), the copy handler returns at once, before it touches
    the clipboard: the state is the one it started from, label included,
    and the effect trace is empty (no clipboard write, no timer). *)
Theorem copy_without_result_is_noop
    (nav : Navigator) (s1 : IndexTsx.State) (s2 : Part000.State) :
  truthy_opt (IndexTsx.result s1) = false ->
  truthy (Part000.result s2) = false ->
  IndexTsx.handleCopy nav s1 = (Ok tt, s1, []) /\
  Part000.handleCopy nav s2 = (Ok tt, s2, []).
Proof.
  destruct s1 as [ci1 pl1 bl1 ld1 res1 e1 c1], s2 as [ci2 pl2 bl2 ld2 sm2 res2 e2 c2].
  simpl. intros T1 T2.
  destruct res1 as [[|a r]|]; try discriminate;
    destruct res2; try discriminate; split; reflexivity.
Qed.

Lemma copy_without_result_is_noop_witness :
  IndexTsx.handleCopy Sample2.navigator_without_clipboard Sample.v1_blank
    = (Ok tt, Sample.v1_blank, []) /\
  IndexTsx.handleCopy Sample2.navigator Sample.v1_undefined_result
    = (Ok tt, Sample.v1_undefined_result, []) /\
  Part000.handleCopy Sample2.navigator_without_clipboard Sample.v2_blank
    = (Ok tt, Sample.v2_blank, []).
Proof.
  split; [exact (proj1 (copy_without_result_is_noop Sample2.navigator_without_clipboard
                          Sample.v1_blank Sample.v2_blank eq_refl eq_refl))|].
  split; [exact (proj1 (copy_without_result_is_noop Sample2.navigator
                          Sample.v1_undefined_result Sample.v2_blank eq_refl eq_refl))|].
  exact (proj2 (copy_without_result_is_noop Sample2.navigator_without_clipboard
                  Sample.v1_blank Sample.v2_blank eq_refl eq_refl)).
Defined.

(** ** Running an accepted attempt *)

(** With a slot populated the guard of [handleAnalyze] lets the attempt
    through. *)
Lemma v1_any_file_passes_guard (s : IndexTsx.State) :
  IndexTsx.anyFileUploaded s = true ->
  IndexTsx.no_file (IndexTsx.ciFile s) (IndexTsx.plFile s) (IndexTsx.blFile s) = false.
Proof.
  unfold IndexTsx.anyFileUploaded, IndexTsx.no_file.
  destruct (IndexTsx.ciFile s), (IndexTsx.plFile s), (IndexTsx.blFile s);
    simpl; congruence.
Qed.

Lemma v2_any_file_passes_guard (s : Part000.State) :
  Part000.anyFileUploaded s = true ->
  Part000.no_file (Part000.ciFile s) (Part000.plFile s) (Part000.blFile s) = false.
Proof.
  unfold Part000.anyFileUploaded, Part000.no_file.
  destruct (Part000.ciFile s), (Part000.plFile s), (Part000.blFile s);
    simpl; congruence.
Qed.

(** Past the guard, [handleAnalyze] is the setters followed by the
    [try] statement over the current slot values. *)
Lemma v1_handleAnalyze_accepted (env : Env) (ai : Client) (s : IndexTsx.State) :
  IndexTsx.anyFileUploaded s = true ->
  IndexTsx.handleAnalyze env ai s =
  IndexTsx.attempt env ai (IndexTsx.ciFile s) (IndexTsx.plFile s) (IndexTsx.blFile s)
    (final (IndexTsx.begin_analysis s)).
Proof.
  intros Hany. unfold IndexTsx.handleAnalyze, bind at 1, get.
  rewrite (v1_any_file_passes_guard s Hany).
  unfold bind. cbn [IndexTsx.begin_analysis final fst snd].
  destruct (IndexTsx.attempt env ai _ _ _ _) as [[r s'] l] eqn:E.
  cbn in E |- *. rewrite E. destruct r; reflexivity.
Qed.

Lemma v2_handleAnalyze_accepted (env : Env) (s : Part000.State) :
  Part000.anyFileUploaded s = true ->
  Part000.handleAnalyze env s =
  Part000.attempt env (Part000.ciFile s) (Part000.plFile s) (Part000.blFile s)
    (final (Part000.begin_analysis s)).
Proof.
  intros Hany. unfold Part000.handleAnalyze, bind at 1, get.
  rewrite (v2_any_file_passes_guard s Hany).
  unfold bind. cbn [Part000.begin_analysis final fst snd].
  destruct (Part000.attempt env _ _ _ _) as [[r s'] l] eqn:E.
  cbn in E |- *. rewrite E. destruct r; reflexivity.
Qed.

(** The only thrown value the [catch] block turns into the missing-key
    message is an [Error] carrying exactly that text. *)
Lemma v2_missing_key_message_origin (err : Thrown) :
  Part000.message_of err = Part000.missing_key_message ->
  err = ErrorObj Part000.missing_key_message.
Proof.
  destruct err as [m|]; simpl; [|discriminate].
  destruct (includes m "API Key must be set"); [discriminate|].
  intros ->. reflexivity.
Qed.

(** In [src/index.tsx] the client is built while [App] renders: with an SDK
    constructor that throws on the absent key the component does not mount,
    so no analysis can be triggered at all. *)
Lemma v1_mount_without_credential (env : Env) (err : Thrown) :
  GoogleGenAI env (API_KEY env) = inl err ->
  IndexTsx.mount env = inl err.
Proof. intros H. unfold IndexTsx.mount. rewrite H. reflexivity. Qed.

(** X23. Later revision: an attempt made while [process.env.API_KEY] is
    absent or empty throws before the client is built: the trace holds the
    console log of that error and nothing else (no file read, no network
    call), the attempt ends with loading off and no result, and the
    surfaced error is the dedicated missing-key message.  That message
    differs from the generic and the empty-response messages, and no other
    thrown value is rendered as it. *)
Theorem revised_missing_credential_fails_before_network
    (env : Env) (s : Part000.State) :
  truthy_opt (API_KEY env) = false ->
  Part000.anyFileUploaded s = true ->
  let run := Part000.handleAnalyze env s in
  outcome run = Ok tt /\
  trace run = [ConsoleError (ErrorObj Part000.missing_key_message)] /\
  network_calls (trace run) = [] /\
  file_reads (trace run) = [] /\
  Part000.error (final run) = Part000.missing_key_message /\
  Part000.result (final run) = empty /\
  Part000.loading (final run) = false /\
  Part000.missing_key_message <> Part000.unexpected_message /\
  Part000.missing_key_message <> Part000.empty_response_message /\
  (forall err, Part000.message_of err = Part000.missing_key_message ->
               err = ErrorObj Part000.missing_key_message).
Proof.
  intros Hkey Hany. cbv zeta.
  rewrite (v2_handleAnalyze_accepted env s Hany).
  unfold Part000.attempt, try_catch_finally, bind.
  rewrite Hkey. cbn.
  repeat split; try discriminate.
  exact v2_missing_key_message_origin.
Qed.

Lemma revised_missing_credential_fails_before_network_witness :
  Part000.error (final (Part000.handleAnalyze Sample.env_no_key Sample.v2_invoice_only))
    = "API Key is missing. Please check your environment configuration." /\
  network_calls (trace (Part000.handleAnalyze Sample.env_no_key Sample.v2_invoice_only))
    = [] /\
  file_reads (trace (Part000.handleAnalyze Sample2.env_empty_key Sample.v2_invoice_only))
    = [].
Proof.
  destruct (revised_missing_credential_fails_before_network Sample.env_no_key
              Sample.v2_invoice_only eq_refl eq_refl)
    as [_ [_ [N [_ [E _]]]]].
  destruct (revised_missing_credential_fails_before_network Sample2.env_empty_key
              Sample.v2_invoice_only eq_refl eq_refl)
    as [_ [_ [_ [R _]]]].
  exact (conj E (conj N R)).
Defined.

(** In [src/index.tsx] the handler never looks at the credential: its run
    is the same in two environments that differ in [API_KEY] (and in the
    SDK constructor) only. *)
Lemma v1_handler_ignores_the_credential (env : Env) (key : option string)
    (sdk : option string -> Thrown + Client) (ai : Client) (s : IndexTsx.State) :
  IndexTsx.handleAnalyze (mkEnv key sdk (readAsDataURL env)) ai s
  = IndexTsx.handleAnalyze env ai s.
Proof.
  destruct s as [ci pl bl ld res e c].
  unfold IndexTsx.handleAnalyze, IndexTsx.begin_analysis, IndexTsx.attempt,
    try_catch_finally, bind, get, IndexTsx.push_if, IndexTsx.fileToGenerativePart.
  destruct ci, pl, bl; reflexivity.
Qed.


(** ** The assembled request *)

Ltac run_attempt :=
  unfold IndexTsx.attempt, Part000.attempt, try_catch_finally, bind,
    IndexTsx.push_if, Part000.push_if,
    IndexTsx.fileToGenerativePart, Part000.fileToGenerativePart,
    callGenerateContent, bind, emit, ret, throw, never.

(** Turns [reads_as] facts about the files in the slots into rewritable
    equations on the reader and on element 1 of the split URL. *)
Ltac use_reads H :=
  repeat match goal with
  | f : File |- _ =>
      lazymatch goal with
      | _ : readAsDataURL _ f = _ |- _ => fail
      | _ =>
          let h := fresh "h" in
          let Hh := fresh "Hh" in
          let Hp := fresh "Hp" in
          let Hr := fresh "Hr" in
          destruct (H f ltac:(simpl; auto)) as (h & Hh & Hp & Hr);
          pose proof (base64_of_dataURL_payload _ _ Hh Hp)
      end
  end.

(** Under [reads_as], encoding a file yields the spec's encoded part. *)
Lemma v1_fileToGenerativePart_encodes (env : Env) (b64 : File -> string)
    (f : File) (s : IndexTsx.State) :
  reads_as env b64 f ->
  IndexTsx.fileToGenerativePart env f s = (Ok (encoded_part b64 f), s, [FileRead f]).
Proof.
  intros (h & Hh & Hp & Hr).
  unfold IndexTsx.fileToGenerativePart, bind, emit, ret. rewrite Hr.
  rewrite (base64_of_dataURL_payload _ _ Hh Hp). reflexivity.
Qed.

Lemma v2_fileToGenerativePart_encodes (env : Env) (b64 : File -> string)
    (f : File) (s : Part000.State) :
  reads_as env b64 f ->
  Part000.fileToGenerativePart env f s = (Ok (encoded_part b64 f), s, [FileRead f]).
Proof.
  intros (h & Hh & Hp & Hr).
  unfold Part000.fileToGenerativePart, bind, emit, ret. rewrite Hr.
  rewrite (base64_of_dataURL_payload _ _ Hh Hp). reflexivity.
Qed.

Lemma in_present_slot (f : File) (ci pl bl : option File) :
  ci = Some f \/ pl = Some f \/ bl = Some f -> In f (present [ci; pl; bl]).
Proof.
  intros H. destruct ci as [a|], pl as [b|], bl as [c|]; simpl;
    destruct H as [H|[H|H]]; try discriminate; injection H as <-; auto.
Qed.

(** The [try] statement of [src/index.tsx] issues exactly one call, with
    the spec's request, after reading the populated slots in slot order. *)
Lemma v1_attempt_request (env : Env) (ai : Client) (b64 : File -> string)
    (ci pl bl : option File) (s : IndexTsx.State) :
  (forall f, In f (present [ci; pl; bl]) -> reads_as env b64 f) ->
  let run := IndexTsx.attempt env ai ci pl bl s in
  network_calls (trace run)
    = [(IndexTsx.model, spec_request IndexTsx.prompt b64 ci pl bl)] /\
  file_reads (trace run) = present [ci; pl; bl].
Proof.
  intros H. cbv zeta.
  destruct ci as [a|], pl as [b|], bl as [c|]; use_reads H; run_attempt;
    repeat match goal with
           | Hr : readAsDataURL env _ = _ |- _ => rewrite Hr; clear Hr
           end;
    repeat match goal with
           | Hb : base64_of_dataURL _ = _ |- _ => rewrite Hb; clear Hb
           end;
    cbn -[IndexTsx.prompt];
    destruct (generateContent ai _ _); split; reflexivity.
Qed.

Lemma v2_attempt_request (env : Env) (ai : Client) (b64 : File -> string)
    (ci pl bl : option File) (s : Part000.State) :
  truthy_opt (API_KEY env) = true ->
  GoogleGenAI env (API_KEY env) = inr ai ->
  (forall f, In f (present [ci; pl; bl]) -> reads_as env b64 f) ->
  let run := Part000.attempt env ci pl bl s in
  network_calls (trace run)
    = [(Part000.model, spec_request Part000.prompt b64 ci pl bl)] /\
  file_reads (trace run) = present [ci; pl; bl].
Proof.
  intros Hkey Hai H. cbv zeta.
  destruct ci as [a|], pl as [b|], bl as [c|]; use_reads H; run_attempt;
    rewrite Hkey, Hai;
    repeat match goal with
           | Hr : readAsDataURL env _ = _ |- _ => rewrite Hr; clear Hr
           end;
    repeat match goal with
           | Hb : base64_of_dataURL _ = _ |- _ => rewrite Hb; clear Hb
           end;
    cbn -[Part000.prompt];
    destruct (generateContent ai _ _) as [e|[[|ch t]|]|]; split; reflexivity.
Qed.

(** Picks in two different slots commute. *)
Lemma v1_picks_commute (a b : Slot) (f g : File) (s : IndexTsx.State) :
  a <> b ->
  final (IndexTsx.onChange a (Some [f]) (final (IndexTsx.onChange b (Some [g]) s))) =
  final (IndexTsx.onChange b (Some [g]) (final (IndexTsx.onChange a (Some [f]) s))).
Proof. destruct a, b; intros H; try congruence; reflexivity. Qed.

Lemma v2_picks_commute (a b : Slot) (f g : File) (s : Part000.State) :
  a <> b ->
  final (Part000.onChange a (Some [f]) (final (Part000.onChange b (Some [g]) s))) =
  final (Part000.onChange b (Some [g]) (final (Part000.onChange a (Some [f]) s))).
Proof. destruct a, b; intros H; try congruence; reflexivity. Qed.

(** The state after a round of picks, one per slot at most, does not depend
    on the order of the picks. *)
Lemma v1_select_all_permutation (picks picks' : list (Slot * File)) :
  Permutation picks picks' ->
  NoDup (map fst picks) ->
  forall s, IndexTsx.select_all picks s = IndexTsx.select_all picks' s.
Proof.
  induction 1 as [|x l l' HP IH|x y l|l l' l'' HP1 IH1 HP2 IH2]; intros ND s.
  - reflexivity.
  - simpl in ND. inversion ND; subst.
    unfold IndexTsx.select_all. cbn [fold_left]. apply IH. assumption.
  - simpl in ND. inversion ND as [|? ? Hin ND']; subst.
    unfold IndexTsx.select_all. cbn [fold_left]. f_equal.
    apply v1_picks_commute.
    intros E. apply Hin. left. congruence.
  - rewrite IH1 by assumption. apply IH2.
    eapply Permutation_NoDup; [apply Permutation_map; eassumption | assumption].
Qed.

Lemma v2_select_all_permutation (picks picks' : list (Slot * File)) :
  Permutation picks picks' ->
  NoDup (map fst picks) ->
  forall s, Part000.select_all picks s = Part000.select_all picks' s.
Proof.
  induction 1 as [|x l l' HP IH|x y l|l l' l'' HP1 IH1 HP2 IH2]; intros ND s.
  - reflexivity.
  - simpl in ND. inversion ND; subst.
    unfold Part000.select_all. cbn [fold_left]. apply IH. assumption.
  - simpl in ND. inversion ND as [|? ? Hin ND']; subst.
    unfold Part000.select_all. cbn [fold_left]. f_equal.
    apply v2_picks_commute.
    intros E. apply Hin. left. congruence.
  - rewrite IH1 by assumption. apply IH2.
    eapply Permutation_NoDup; [apply Permutation_map; eassumption | assumption].
Qed.

(** C1. Whatever subset of the slots is populated and in whatever order
    the slots were filled, the one request the analysis issues is the fixed
    instruction text followed by one encoded part (the base64 payload of the
    file's data URL with the file's MIME type) per populated slot, in the
    order invoice, packing list, bill of lading; the files read are those
    of the populated slots, in that order, and empty slots contribute
    nothing.  Stated for a reader that delivers a data URL for each selected
    file and, in the later revision, a present credential accepted by the
    SDK. *)
Theorem request_is_instruction_then_parts_in_slot_order
    (env : Env) (ai : Client) (b64 : File -> string)
    (picks picks' : list (Slot * File))
    (s1 : IndexTsx.State) (s2 : Part000.State) :
  Permutation picks picks' ->
  NoDup (map fst picks) ->
  let t1 := IndexTsx.select_all picks s1 in
  let t1' := IndexTsx.select_all picks' s1 in
  let t2 := Part000.select_all picks s2 in
  let t2' := Part000.select_all picks' s2 in
  IndexTsx.anyFileUploaded t1 = true ->
  Part000.anyFileUploaded t2 = true ->
  (forall f, In f (present [IndexTsx.ciFile t1; IndexTsx.plFile t1; IndexTsx.blFile t1]) ->
             reads_as env b64 f) ->
  (forall f, In f (present [Part000.ciFile t2; Part000.plFile t2; Part000.blFile t2]) ->
             reads_as env b64 f) ->
  truthy_opt (API_KEY env) = true ->
  GoogleGenAI env (API_KEY env) = inr ai ->
  (network_calls (trace (IndexTsx.handleAnalyze env ai t1))
     = [(IndexTsx.model,
         spec_request IndexTsx.prompt b64
           (IndexTsx.ciFile t1) (IndexTsx.plFile t1) (IndexTsx.blFile t1))] /\
   file_reads (trace (IndexTsx.handleAnalyze env ai t1))
     = present [IndexTsx.ciFile t1; IndexTsx.plFile t1; IndexTsx.blFile t1] /\
   IndexTsx.handleAnalyze env ai t1' = IndexTsx.handleAnalyze env ai t1) /\
  (network_calls (trace (Part000.handleAnalyze env t2))
     = [(Part000.model,
         spec_request Part000.prompt b64
           (Part000.ciFile t2) (Part000.plFile t2) (Part000.blFile t2))] /\
   file_reads (trace (Part000.handleAnalyze env t2))
     = present [Part000.ciFile t2; Part000.plFile t2; Part000.blFile t2] /\
   Part000.handleAnalyze env t2' = Part000.handleAnalyze env t2).
Proof.
  intros HP ND t1 t1' t2 t2' A1 A2 R1 R2 Hkey Hai.
  assert (E1 : t1' = t1)
    by (symmetry; apply v1_select_all_permutation; assumption).
  assert (E2 : t2' = t2)
    by (symmetry; apply v2_select_all_permutation; assumption).
  rewrite E1, E2.
  rewrite (v1_handleAnalyze_accepted env ai t1 A1).
  rewrite (v2_handleAnalyze_accepted env t2 A2).
  destruct (v1_attempt_request env ai b64 _ _ _
              (final (IndexTsx.begin_analysis t1)) R1) as [N1 F1].
  destruct (v2_attempt_request env ai b64 _ _ _
              (final (Part000.begin_analysis t2)) Hkey Hai R2) as [N2 F2].
  repeat split; assumption.
Qed.

Lemma append_assoc (a b c : string) :
  ((a ++ b) ++ c = a ++ (b ++ c))%string.
Proof. induction a as [|x a IH]; simpl; [reflexivity | rewrite IH; reflexivity]. Qed.

Lemma has_char_append (c : ascii) (a b : string) :
  has_char c (a ++ b)%string = has_char c a || has_char c b.
Proof.
  induction a as [|x a IH]; simpl; [reflexivity|].
  rewrite IH, orb_assoc. reflexivity.
Qed.

Lemma sample_reader_reads_as (f : File) :
  has_char comma (type f) = false ->
  has_char comma (Sample.b64 f) = false ->
  reads_as Sample.env_ok Sample.b64 f.
Proof.
  intros Ht Hb. exists ("data:" ++ type f ++ ";base64")%string.
  split; [|split; [assumption|]].
  - rewrite !has_char_append, Ht. reflexivity.
  - unfold Sample.env_ok, Sample.reader, Sample.dataURL. simpl.
    rewrite !append_assoc. reflexivity.
Qed.

Lemma request_is_instruction_then_parts_in_slot_order_witness :
  network_calls
    (trace (IndexTsx.handleAnalyze Sample.env_ok Sample.client_ok
              (IndexTsx.select_all Sample.lading_first IndexTsx.initial)))
  = [(IndexTsx.model,
      [text IndexTsx.prompt;
       inlineData (Some "JVBERg==") "application/pdf";
       inlineData (Some "/9j/") "image/jpeg"])] /\
  network_calls
    (trace (Part000.handleAnalyze Sample.env_ok
              (Part000.select_all Sample.lading_first Part000.initial)))
  = [(Part000.model,
      [text Part000.prompt;
       inlineData (Some "JVBERg==") "application/pdf";
       inlineData (Some "/9j/") "image/jpeg"])] /\
  Part000.handleAnalyze Sample.env_ok
    (Part000.select_all Sample.invoice_first Part000.initial)
  = Part000.handleAnalyze Sample.env_ok
      (Part000.select_all Sample.lading_first Part000.initial).
Proof.
  assert (HP : Permutation Sample.lading_first Sample.invoice_first)
    by apply perm_swap.
  assert (ND : NoDup (map fst Sample.lading_first)).
  { repeat constructor; simpl; intuition discriminate. }
  assert (R : forall f, In f [Sample.invoice; Sample.lading] ->
                        reads_as Sample.env_ok Sample.b64 f).
  { intros f [<-|[<-|[]]]; apply sample_reader_reads_as; reflexivity. }
  destruct (request_is_instruction_then_parts_in_slot_order
              Sample.env_ok Sample.client_ok Sample.b64
              Sample.lading_first Sample.invoice_first
              IndexTsx.initial Part000.initial HP ND eq_refl eq_refl R R
              eq_refl eq_refl)
    as [[N1 _] [N2 [_ E2]]].
  split; [exact N1 | split; [exact N2 | exact E2]].
Defined.

(** ** How an accepted attempt ends *)

(** Case analysis on the slots, the reader and the client, after unfolding
    the [try] statement. *)
Ltac by_cases env :=
  run_attempt;
  repeat match goal with
         | H : truthy_opt (API_KEY env) = _ |- _ => rewrite H; clear H
         | H : GoogleGenAI env _ = _ |- _ => rewrite H; clear H
         | H : forall m p, generateContent _ m p = _ |- _ => rewrite !H; clear H
         | |- context [readAsDataURL env ?f] => destruct (readAsDataURL env f) eqn:?
         | |- context [GoogleGenAI env ?k] => destruct (GoogleGenAI env k) eqn:?
         | |- context [generateContent ?ai ?m ?p] => destruct (generateContent ai m p) eqn:?
         | |- context [truthy_opt (API_KEY env)] => destruct (truthy_opt (API_KEY env)) eqn:?
         | |- context [match ?o with Some _ => _ | None => _ end] => is_var o; destruct o
         | |- context [match ?t with EmptyString => _ | String _ _ => _ end] => is_var t; destruct t
         | _ => progress cbn -[IndexTsx.prompt Part000.prompt includes]
         end.

(** [src/index.tsx]: when the call resolves, [response.text] goes into the
    result cell as it is, whatever it is, and no error is set. *)
Lemma v1_resolved_call_stores_text (env : Env) (ai : Client) (t : option string)
    (s : IndexTsx.State) :
  IndexTsx.anyFileUploaded s = true ->
  (forall f, readAsDataURL env f <> None) ->
  (forall m p, generateContent ai m p = Resolved t) ->
  let run := IndexTsx.handleAnalyze env ai s in
  outcome run = Ok tt /\
  IndexTsx.result (final run) = t /\
  IndexTsx.error (final run) = empty /\
  IndexTsx.loading (final run) = false.
Proof.
  intros Hany Hread Hcall. cbv zeta.
  rewrite (v1_handleAnalyze_accepted env ai s Hany).
  destruct s as [ci pl bl ld res e c]. cbn [IndexTsx.ciFile IndexTsx.plFile IndexTsx.blFile].
  by_cases env; repeat split;
    match goal with
    | H : readAsDataURL env ?f = None |- _ => destruct (Hread f H)
    end.
Qed.

(** [src/index.tsx]: a rejected call surfaces the rejection's message (the
    generic text when the rejection is not an [Error]); the result stays
    empty. *)
Lemma v1_rejected_call (env : Env) (ai : Client) (err : Thrown) (s : IndexTsx.State) :
  IndexTsx.anyFileUploaded s = true ->
  (forall f, readAsDataURL env f <> None) ->
  (forall m p, generateContent ai m p = Rejected err) ->
  let run := IndexTsx.handleAnalyze env ai s in
  outcome run = Ok tt /\
  IndexTsx.loading (final run) = false /\
  IndexTsx.result (final run) = Some empty /\
  IndexTsx.error (final run) =
    match err with
    | ErrorObj message => message
    | NonError => "An unexpected error occurred. Please try again."
    end.
Proof.
  intros Hany Hread Hcall. cbv zeta.
  rewrite (v1_handleAnalyze_accepted env ai s Hany).
  destruct s as [ci pl bl ld res e c]. cbn [IndexTsx.ciFile IndexTsx.plFile IndexTsx.blFile].
  by_cases env; repeat split;
    match goal with
    | H : readAsDataURL env ?f = None |- _ => destruct (Hread f H)
    end.
Qed.

(** Later revision: when the call resolves with a non-empty text, that text
    goes into the result cell unchanged and no error is set; when it resolves
    with [''] or [undefined], the empty-response error is surfaced and the
    result cell stays empty. *)
Lemma v2_resolved_call (env : Env) (ai : Client) (t : option string)
    (s : Part000.State) :
  Part000.anyFileUploaded s = true ->
  truthy_opt (API_KEY env) = true ->
  GoogleGenAI env (API_KEY env) = inr ai ->
  (forall f, readAsDataURL env f <> None) ->
  (forall m p, generateContent ai m p = Resolved t) ->
  let run := Part000.handleAnalyze env s in
  outcome run = Ok tt /\
  Part000.loading (final run) = false /\
  (if truthy_opt t
   then Some (Part000.result (final run)) = t /\ Part000.error (final run) = empty
   else Part000.result (final run) = empty /\
        Part000.error (final run) = Part000.empty_response_message).
Proof.
  intros Hany Hkey Hai Hread Hcall. cbv zeta.
  rewrite (v2_handleAnalyze_accepted env s Hany).
  destruct s as [ci pl bl ld sm res e c]. cbn [Part000.ciFile Part000.plFile Part000.blFile].
  by_cases env; repeat split;
    match goal with
    | H : readAsDataURL env ?f = None |- _ => destruct (Hread f H)
    end.
Qed.

(** C3. [src/index.tsx] at a resolved call whose text is empty (the invoice
    slot populated, the reader working, the service answering [''] or a
    response without text): the call is issued, the handler returns, the
    result cell holds the empty answer and the error cell is empty, so
    neither a result nor an error is displayed.  On the same input the later
    revision surfaces its empty-response error.  (A non-empty text is stored
    verbatim by both.) *)
Theorem index_tsx_empty_response_is_silent :
  let run := IndexTsx.handleAnalyze Sample.env_empty Sample.client_empty
               Sample.v1_invoice_only in
  let run_undefined := IndexTsx.handleAnalyze Sample.env_undefined Sample.client_undefined
               Sample.v1_invoice_only in
  let revised := Part000.handleAnalyze Sample.env_empty Sample.v2_invoice_only in
  (outcome run = Ok tt /\
   List.length (network_calls (trace run)) = 1%nat /\
   IndexTsx.result (final run) = Some empty /\
   IndexTsx.error (final run) = empty) /\
  (outcome run_undefined = Ok tt /\
   IndexTsx.result (final run_undefined) = None /\
   IndexTsx.error (final run_undefined) = empty) /\
  (Part000.error (final revised) = Part000.empty_response_message /\
   Part000.result (final revised) = empty) /\
  (IndexTsx.result (final (IndexTsx.handleAnalyze Sample.env_ok Sample.client_ok
                             Sample.v1_invoice_only)) = Some Sample.answer /\
   Part000.result (final (Part000.handleAnalyze Sample.env_ok Sample.v2_invoice_only))
     = Sample.answer).
Proof. vm_compute. repeat split. Qed.

(** Later revision: a rejected call surfaces the message the [catch] block
    derives from the rejection, and the result stays empty. *)
Lemma v2_rejected_call (env : Env) (ai : Client) (err : Thrown) (s : Part000.State) :
  Part000.anyFileUploaded s = true ->
  truthy_opt (API_KEY env) = true ->
  GoogleGenAI env (API_KEY env) = inr ai ->
  (forall f, readAsDataURL env f <> None) ->
  (forall m p, generateContent ai m p = Rejected err) ->
  let run := Part000.handleAnalyze env s in
  outcome run = Ok tt /\
  Part000.loading (final run) = false /\
  Part000.result (final run) = empty /\
  Part000.error (final run) = Part000.message_of err.
Proof.
  intros Hany Hkey Hai Hread Hcall. cbv zeta.
  rewrite (v2_handleAnalyze_accepted env s Hany).
  destruct s as [ci pl bl ld sm res e c]. cbn [Part000.ciFile Part000.plFile Part000.blFile].
  by_cases env; repeat split;
    match goal with
    | H : readAsDataURL env ?f = None |- _ => destruct (Hread f H)
    end.
Qed.

(** Later revision: a file that cannot be read rejects the encoding, the
    generic message is surfaced and no call is issued. *)
Lemma v2_unreadable_file (env : Env) (ai : Client) (s : Part000.State) :
  Part000.anyFileUploaded s = true ->
  truthy_opt (API_KEY env) = true ->
  GoogleGenAI env (API_KEY env) = inr ai ->
  (forall f, readAsDataURL env f = None) ->
  let run := Part000.handleAnalyze env s in
  outcome run = Ok tt /\
  Part000.loading (final run) = false /\
  Part000.result (final run) = empty /\
  Part000.error (final run) = Part000.unexpected_message /\
  network_calls (trace run) = [].
Proof.
  intros Hany Hkey Hai Hread. cbv zeta.
  rewrite (v2_handleAnalyze_accepted env s Hany).
  destruct s as [ci pl bl ld sm res e c].
  unfold Part000.anyFileUploaded in Hany.
  cbn [Part000.ciFile Part000.plFile Part000.blFile] in *.
  destruct ci, pl, bl; try discriminate; run_attempt;
    rewrite Hkey, Hai, ?Hread; cbn -[Part000.prompt]; repeat split.
Qed.

(** Later revision: an accepted attempt returns with loading off, and
    then either ends with a non-empty result and no error, or with an empty
    result and the message of a thrown value that was logged; or else it is
    left waiting for the service call, which it has issued and which stays
    pending, with loading on and nothing to display. *)
Lemma v2_attempt_ends (env : Env) (s : Part000.State) :
  Part000.anyFileUploaded s = true ->
  let run := Part000.handleAnalyze env s in
  (outcome run = Ok tt /\
   Part000.loading (final run) = false /\
   Part000.statusMessage (final run) = empty /\
   ((truthy (Part000.result (final run)) = true /\
     Part000.error (final run) = empty) \/
    (Part000.result (final run) = empty /\
     exists err, In (ConsoleError err) (trace run) /\
                 Part000.error (final run) = Part000.message_of err))) \/
  (outcome run = Hang /\
   (exists ai m p, GoogleGenAI env (API_KEY env) = inr ai /\
                   generateContent ai m p = Pending /\
                   network_calls (trace run) = [(m, p)]) /\
   Part000.loading (final run) = true /\
   Part000.result (final run) = empty /\
   Part000.error (final run) = empty).
Proof.
  intros Hany. cbv zeta.
  rewrite (v2_handleAnalyze_accepted env s Hany).
  destruct s as [ci pl bl ld sm res e c]. cbn [Part000.ciFile Part000.plFile Part000.blFile].
  by_cases env;
    first [ left; (split; [reflexivity|]); (split; [reflexivity|]);
            (split; [reflexivity|]);
            first [ left; split; reflexivity
                  | right; split; [reflexivity|]; eexists; split;
                    [ cbn; eauto 10 | reflexivity ] ]
          | right; (split; [reflexivity|]);
            (split; [do 3 eexists; split; [reflexivity|]; split;
                     [eassumption | reflexivity]|]);
            repeat split ].
Qed.

(** The message the [catch] block surfaces is non-empty as soon as a thrown
    [Error] carries a non-empty message. *)
Lemma v2_message_of_nonempty (err : Thrown) :
  (forall m, err = ErrorObj m -> truthy m = true) ->
  truthy (Part000.message_of err) = true.
Proof.
  destruct err as [m|]; simpl; intros H; [|reflexivity].
  destruct (includes m "API Key must be set"); [reflexivity|].
  apply H. reflexivity.
Qed.

(** C6. [src/index.tsx] at a file that cannot be read (the invoice slot
    populated, the reader failing): the encoding promise is never settled,
    so the handler neither returns nor reaches its [catch] and [finally]
    blocks; no error is surfaced and the loading flag stays on.  On the
    same input the later revision returns with the generic error surfaced,
    loading off and the result empty. *)
Theorem index_tsx_unreadable_file_never_completes :
  let run := IndexTsx.handleAnalyze Sample.env_unreadable Sample.client_ok
               Sample.v1_invoice_only in
  let revised := Part000.handleAnalyze Sample.env_unreadable Sample.v2_invoice_only in
  (outcome run = Hang /\
   trace run = [FileRead Sample.invoice] /\
   IndexTsx.error (final run) = empty /\
   IndexTsx.loading (final run) = true) /\
  (outcome revised = Ok tt /\
   Part000.error (final revised) = Part000.unexpected_message /\
   Part000.result (final revised) = empty /\
   Part000.loading (final revised) = false).
Proof. vm_compute. repeat split. Qed.

(** ** One request at a time *)

Lemma v1_onChange_keeps_loading (slot : Slot) (files : option (list File))
    (s : IndexTsx.State) :
  IndexTsx.loading (final (IndexTsx.onChange slot files s)) = IndexTsx.loading s.
Proof. destruct slot, files as [[|f l]|]; reflexivity. Qed.

Lemma v2_onChange_keeps_loading (slot : Slot) (files : option (list File))
    (s : Part000.State) :
  Part000.loading (final (Part000.onChange slot files s)) = Part000.loading s.
Proof. destruct slot, files as [[|f l]|]; reflexivity. Qed.

Lemma v1_handleCopy_keeps_loading (nav : Navigator) (s : IndexTsx.State) :
  IndexTsx.loading (final (IndexTsx.handleCopy nav s)) = IndexTsx.loading s.
Proof.
  unfold IndexTsx.handleCopy, bind, get.
  destruct (IndexTsx.result s) as [[|c r]|]; try reflexivity.
  destruct (writeText nav _); reflexivity.
Qed.

Lemma v2_handleCopy_keeps_loading (nav : Navigator) (s : Part000.State) :
  Part000.loading (final (Part000.handleCopy nav s)) = Part000.loading s.
Proof.
  unfold Part000.handleCopy, bind, get.
  destruct (Part000.result s) as [|c r]; try reflexivity.
  cbn [truthy negb]. destruct (writeText nav _); reflexivity.
Qed.

(** In [src/index.tsx] the [try] statement can only stall in a file read,
    before any cell is written. *)
Lemma v1_attempt_stalls_in_place (env : Env) (ai : Client) (ci pl bl : option File)
    (s : IndexTsx.State) :
  outcome (IndexTsx.attempt env ai ci pl bl s) = Hang ->
  final (IndexTsx.attempt env ai ci pl bl s) = s.
Proof.
  destruct s as [sci spl sbl ld res e c].
  by_cases env; intros H; try discriminate H; reflexivity.
Qed.

(** In the later revision the [try] statement returns with loading off,
    unless it is left waiting for a call that stays pending; the loading
    flag is then the one it started with. *)
Lemma v2_attempt_returns (env : Env) (ci pl bl : option File) (s : Part000.State) :
  (outcome (Part000.attempt env ci pl bl s) = Ok tt /\
   Part000.loading (final (Part000.attempt env ci pl bl s)) = false) \/
  (outcome (Part000.attempt env ci pl bl s) = Hang /\
   Part000.loading (final (Part000.attempt env ci pl bl s)) = Part000.loading s).
Proof.
  destruct s as [sci spl sbl ld sm res e c].
  by_cases env; first [left; split; reflexivity | right; split; reflexivity].
Qed.

Lemma v1_fire_preserves (ev : IndexTsx.Event) (u u' : IndexTsx.UI) :
  v1_one_at_a_time u -> IndexTsx.fire ev u = Some u' -> v1_one_at_a_time u'.
Proof.
  intros Inv F. destruct ev as [slot files| |env ai|nav|]; simpl in F.
  - injection F as <-. destruct Inv as [E|[E L]]; [left; exact E|right].
    split; [exact E|]. simpl. rewrite v1_onChange_keeps_loading. exact L.
  - destruct (IndexTsx.analyze_disabled (IndexTsx.cells u)) eqn:D; [discriminate|].
    unfold IndexTsx.analyze_disabled in D. apply orb_false_iff in D as [_ L].
    destruct Inv as [E|[_ L']]; [|congruence].
    destruct (IndexTsx.no_file _ _ _); injection F as <-; simpl.
    + left. exact E.
    + right. rewrite E. split; [eexists; reflexivity | reflexivity].
  - destruct Inv as [E|[[r E] L]]; rewrite E in F; [discriminate|].
    destruct r as [[ci pl] bl].
    destruct (outcome (IndexTsx.attempt env ai ci pl bl (IndexTsx.cells u))) eqn:O;
      injection F as <-; simpl; try (left; reflexivity).
    right. split; [eexists; reflexivity|].
    rewrite (v1_attempt_stalls_in_place _ _ _ _ _ _ O). exact L.
  - destruct (truthy_opt (IndexTsx.result (IndexTsx.cells u))); [|discriminate].
    injection F as <-. destruct Inv as [E|[E L]]; [left; exact E|right].
    split; [exact E|]. simpl. rewrite v1_handleCopy_keeps_loading. exact L.
  - destruct (IndexTsx.timers u) as [|cb rest]; [discriminate|].
    injection F as <-. destruct Inv as [E|[E L]]; [left; exact E|right].
    split; [exact E|]. destruct cb. exact L.
Qed.

Lemma v2_fire_preserves (ev : Part000.Event) (u u' : Part000.UI) :
  v2_one_at_a_time u -> Part000.fire ev u = Some u' -> v2_one_at_a_time u'.
Proof.
  intros Inv F. destruct ev as [slot files| |env|nav|]; simpl in F.
  - injection F as <-. destruct Inv as [E|[E L]]; [left; exact E|right].
    split; [exact E|]. simpl. rewrite v2_onChange_keeps_loading. exact L.
  - destruct (Part000.analyze_disabled (Part000.cells u)) eqn:D; [discriminate|].
    unfold Part000.analyze_disabled in D. apply orb_false_iff in D as [_ L].
    destruct Inv as [E|[_ L']]; [|congruence].
    destruct (Part000.no_file _ _ _); injection F as <-; simpl.
    + left. exact E.
    + right. rewrite E. split; [eexists; reflexivity | reflexivity].
  - destruct Inv as [E|[[r E] L]]; rewrite E in F; [discriminate|].
    destruct r as [[ci pl] bl].
    destruct (v2_attempt_returns env ci pl bl (Part000.cells u)) as [[O _]|[O K]];
      rewrite O in F; injection F as <-; [left; reflexivity|].
    right. split; [eexists; reflexivity|]. simpl. rewrite K. exact L.
  - destruct (truthy (Part000.result (Part000.cells u))); [|discriminate].
    injection F as <-. destruct Inv as [E|[E L]]; [left; exact E|right].
    split; [exact E|]. simpl. rewrite v2_handleCopy_keeps_loading. exact L.
  - destruct (Part000.timers u) as [|cb rest]; [discriminate|].
    injection F as <-. destruct Inv as [E|[E L]]; [left; exact E|right].
    split; [exact E|]. destruct cb. exact L.
Qed.

Lemma v1_fire_all_preserves (evs : list IndexTsx.Event) :
  forall u u', v1_one_at_a_time u -> IndexTsx.fire_all evs u = Some u' ->
               v1_one_at_a_time u'.
Proof.
  induction evs as [|ev evs IH]; simpl; intros u u' Inv F.
  - injection F as <-. exact Inv.
  - destruct (IndexTsx.fire ev u) as [u1|] eqn:E; [|discriminate].
    exact (IH u1 u' (v1_fire_preserves ev u u1 Inv E) F).
Qed.

Lemma v2_fire_all_preserves (evs : list Part000.Event) :
  forall u u', v2_one_at_a_time u -> Part000.fire_all evs u = Some u' ->
               v2_one_at_a_time u'.
Proof.
  induction evs as [|ev evs IH]; simpl; intros u u' Inv F.
  - injection F as <-. exact Inv.
  - destruct (Part000.fire ev u) as [u1|] eqn:E; [|discriminate].
    exact (IH u1 u' (v2_fire_preserves ev u u1 Inv E) F).
Qed.

(** C7. In every state the mounted component can reach, in either
    revision: the analyze button is disabled whenever loading is on or no
    slot is populated; a disabled button dispatches no click; an attempt in
    flight implies loading is on (so the button is disabled); and at most
    one attempt is in flight. *)
Theorem trigger_disabled_while_busy (u1 : IndexTsx.UI) (u2 : Part000.UI) :
  IndexTsx.reachable u1 ->
  Part000.reachable u2 ->
  ((IndexTsx.loading (IndexTsx.cells u1) = true \/
    IndexTsx.anyFileUploaded (IndexTsx.cells u1) = false ->
    IndexTsx.analyze_disabled (IndexTsx.cells u1) = true) /\
   (IndexTsx.analyze_disabled (IndexTsx.cells u1) = true ->
    IndexTsx.fire IndexTsx.ClickAnalyze u1 = None) /\
   (IndexTsx.in_flight u1 <> [] ->
    IndexTsx.analyze_disabled (IndexTsx.cells u1) = true) /\
   (List.length (IndexTsx.in_flight u1) <= 1)%nat) /\
  ((Part000.loading (Part000.cells u2) = true \/
    Part000.anyFileUploaded (Part000.cells u2) = false ->
    Part000.analyze_disabled (Part000.cells u2) = true) /\
   (Part000.analyze_disabled (Part000.cells u2) = true ->
    Part000.fire Part000.ClickAnalyze u2 = None) /\
   (Part000.in_flight u2 <> [] ->
    Part000.analyze_disabled (Part000.cells u2) = true) /\
   (List.length (Part000.in_flight u2) <= 1)%nat).
Proof.
  intros [evs1 R1] [evs2 R2].
  assert (I1 : v1_one_at_a_time u1)
    by (apply (v1_fire_all_preserves evs1 IndexTsx.initialUI);
        [left; reflexivity | exact R1]).
  assert (I2 : v2_one_at_a_time u2)
    by (apply (v2_fire_all_preserves evs2 Part000.initialUI);
        [left; reflexivity | exact R2]).
  split; (split; [|split; [|split]]).
  - unfold IndexTsx.analyze_disabled. intros [-> | ->]; auto using orb_true_r.
  - intros D. simpl. rewrite D. reflexivity.
  - unfold IndexTsx.analyze_disabled.
    destruct I1 as [E|[_ L]]; [congruence|]. intros _. rewrite L. apply orb_true_r.
  - destruct I1 as [E|[[r E] _]]; rewrite E; simpl; lia.
  - unfold Part000.analyze_disabled. intros [-> | ->]; auto using orb_true_r.
  - intros D. simpl. rewrite D. reflexivity.
  - unfold Part000.analyze_disabled.
    destruct I2 as [E|[_ L]]; [congruence|]. intros _. rewrite L. apply orb_true_r.
  - destruct I2 as [E|[[r E] _]]; rewrite E; simpl; lia.
Qed.

Lemma trigger_disabled_while_busy_witness :
  (IndexTsx.analyze_disabled (IndexTsx.cells Sample.v1_busy) = true /\
   IndexTsx.fire IndexTsx.ClickAnalyze Sample.v1_busy = None /\
   (List.length (IndexTsx.in_flight Sample.v1_busy) <= 1)%nat) /\
  (Part000.analyze_disabled (Part000.cells Sample.v2_busy) = true /\
   Part000.fire Part000.ClickAnalyze Sample.v2_busy = None /\
   (List.length (Part000.in_flight Sample.v2_busy) <= 1)%nat).
Proof.
  assert (R1 : IndexTsx.reachable Sample.v1_busy).
  { exists [IndexTsx.Change CI (Some [Sample.invoice]); IndexTsx.ClickAnalyze].
    reflexivity. }
  assert (R2 : Part000.reachable Sample.v2_busy).
  { exists [Part000.Change CI (Some [Sample.invoice]); Part000.ClickAnalyze].
    reflexivity. }
  destruct (trigger_disabled_while_busy Sample.v1_busy Sample.v2_busy R1 R2)
    as [[_ [C1 [D1 L1]]] [_ [C2 [D2 L2]]]].
  assert (N1 : IndexTsx.in_flight Sample.v1_busy <> []) by discriminate.
  assert (N2 : Part000.in_flight Sample.v2_busy <> []) by discriminate.
  repeat split; auto.
Defined.

(** With nothing interleaved, a click followed by the settling of the
    attempt is one run of [handleAnalyze]. *)
Lemma v1_click_then_settle (env : Env) (ai : Client) (u : IndexTsx.UI) :
  IndexTsx.analyze_disabled (IndexTsx.cells u) = false ->
  IndexTsx.in_flight u = [] ->
  outcome (IndexTsx.handleAnalyze env ai (IndexTsx.cells u)) <> Hang ->
  IndexTsx.fire_all [IndexTsx.ClickAnalyze; IndexTsx.Settle env ai] u =
  Some (IndexTsx.mkUI (final (IndexTsx.handleAnalyze env ai (IndexTsx.cells u)))
          [] (IndexTsx.timers u)).
Proof.
  intros D E O. unfold IndexTsx.analyze_disabled in D.
  apply orb_false_iff in D as [A L]. apply negb_false_iff in A.
  rewrite (v1_handleAnalyze_accepted env ai _ A) in O |- *.
  simpl. unfold IndexTsx.analyze_disabled. rewrite A, L. simpl.
  rewrite (v1_any_file_passes_guard _ A), E. simpl.
  destruct (outcome _) eqn:O'; try reflexivity. contradiction.
Qed.

Lemma v2_click_then_settle (env : Env) (u : Part000.UI) :
  Part000.analyze_disabled (Part000.cells u) = false ->
  Part000.in_flight u = [] ->
  outcome (Part000.handleAnalyze env (Part000.cells u)) <> Hang ->
  Part000.fire_all [Part000.ClickAnalyze; Part000.Settle env] u =
  Some (Part000.mkUI (final (Part000.handleAnalyze env (Part000.cells u)))
          [] (Part000.timers u)).
Proof.
  intros D E O. unfold Part000.analyze_disabled in D.
  apply orb_false_iff in D as [A L]. apply negb_false_iff in A.
  rewrite (v2_handleAnalyze_accepted env _ A) in O |- *.
  simpl. unfold Part000.analyze_disabled. rewrite A, L. simpl.
  rewrite (v2_any_file_passes_guard _ A), E. simpl.
  destruct (outcome _) eqn:O'; try reflexivity. contradiction.
Qed.

(** * Further properties of the handlers *)

(** Unfolds a whole run of [handleAnalyze], guard included. *)
Ltac run_handler env :=
  unfold IndexTsx.handleAnalyze, Part000.handleAnalyze,
    IndexTsx.begin_analysis, Part000.begin_analysis,
    IndexTsx.no_file, Part000.no_file, populated, bind at 1, get;
  by_cases env.

(** ** What a run of [handleAnalyze] leaves alone *)

(** X1. [handleAnalyze] never writes the three slots: whether the trigger
    is rejected, the attempt succeeds, fails or stalls, the selected files
    are the ones it started with. *)
Theorem analyze_keeps_the_slots
    (env : Env) (ai : Client) (s1 : IndexTsx.State) (s2 : Part000.State) :
  (IndexTsx.ciFile (final (IndexTsx.handleAnalyze env ai s1)) = IndexTsx.ciFile s1 /\
   IndexTsx.plFile (final (IndexTsx.handleAnalyze env ai s1)) = IndexTsx.plFile s1 /\
   IndexTsx.blFile (final (IndexTsx.handleAnalyze env ai s1)) = IndexTsx.blFile s1) /\
  (Part000.ciFile (final (Part000.handleAnalyze env s2)) = Part000.ciFile s2 /\
   Part000.plFile (final (Part000.handleAnalyze env s2)) = Part000.plFile s2 /\
   Part000.blFile (final (Part000.handleAnalyze env s2)) = Part000.blFile s2).
Proof.
  destruct s1 as [ci1 pl1 bl1 ld1 r1 e1 c1], s2 as [ci2 pl2 bl2 ld2 sm2 r2 e2 c2].
  split.
  - run_handler env; repeat split.
  - run_handler env; repeat split.
Qed.

(** X2. A run of [handleAnalyze] never writes to the clipboard and never
    arms a timer: its effects are file reads, the service call and console
    logs. *)
Theorem analyze_never_touches_clipboard_or_timers
    (env : Env) (ai : Client) (s1 : IndexTsx.State) (s2 : Part000.State) :
  Forall analysis_effect (trace (IndexTsx.handleAnalyze env ai s1)) /\
  Forall analysis_effect (trace (Part000.handleAnalyze env s2)).
Proof.
  destruct s1 as [ci1 pl1 bl1 ld1 r1 e1 c1], s2 as [ci2 pl2 bl2 ld2 sm2 r2 e2 c2].
  split.
  - run_handler env; repeat constructor.
  - run_handler env; repeat constructor.
Qed.

(** ** One call at most, and only with every document *)

(** X3. A run of [handleAnalyze] issues at most one network call (nothing
    is retried), and when it issues one, every populated slot's file was
    read successfully and the files read are exactly those of the populated
    slots in slot order: no request leaves with a document missing. *)
Theorem analyze_calls_once_with_every_document
    (env : Env) (ai : Client) (s1 : IndexTsx.State) (s2 : Part000.State) :
  let run1 := IndexTsx.handleAnalyze env ai s1 in
  let run2 := Part000.handleAnalyze env s2 in
  ((List.length (network_calls (trace run1)) <= 1)%nat /\
   (network_calls (trace run1) <> [] ->
    file_reads (trace run1)
      = present [IndexTsx.ciFile s1; IndexTsx.plFile s1; IndexTsx.blFile s1] /\
    forall f, In f (file_reads (trace run1)) -> readAsDataURL env f <> None)) /\
  ((List.length (network_calls (trace run2)) <= 1)%nat /\
   (network_calls (trace run2) <> [] ->
    file_reads (trace run2)
      = present [Part000.ciFile s2; Part000.plFile s2; Part000.blFile s2] /\
    forall f, In f (file_reads (trace run2)) -> readAsDataURL env f <> None)).
Proof.
  cbv zeta.
  destruct s1 as [ci1 pl1 bl1 ld1 r1 e1 c1], s2 as [ci2 pl2 bl2 ld2 sm2 r2 e2 c2].
  split.
  - run_handler env;
      (split; [simpl; lia|]); intros N; try (exfalso; apply N; reflexivity);
      (split; [reflexivity|]); simpl; intros x Hin;
      intuition (subst; congruence).
  - run_handler env;
      (split; [simpl; lia|]); intros N; try (exfalso; apply N; reflexivity);
      (split; [reflexivity|]); simpl; intros x Hin;
      intuition (subst; congruence).
Qed.

(** ** A fresh start for every attempt *)

(** X4. An accepted attempt overwrites every cell but the slots before it
    does anything else: two states with the same files in the slots give the
    same outcome, the same final state and the same effects, whatever
    result, error, label or loading flag they started with. *)
Theorem analyze_depends_only_on_the_slots
    (env : Env) (ai : Client) (s1 s1' : IndexTsx.State) (s2 s2' : Part000.State) :
  IndexTsx.anyFileUploaded s1 = true ->
  Part000.anyFileUploaded s2 = true ->
  (IndexTsx.ciFile s1, IndexTsx.plFile s1, IndexTsx.blFile s1)
    = (IndexTsx.ciFile s1', IndexTsx.plFile s1', IndexTsx.blFile s1') ->
  (Part000.ciFile s2, Part000.plFile s2, Part000.blFile s2)
    = (Part000.ciFile s2', Part000.plFile s2', Part000.blFile s2') ->
  IndexTsx.handleAnalyze env ai s1 = IndexTsx.handleAnalyze env ai s1' /\
  Part000.handleAnalyze env s2 = Part000.handleAnalyze env s2'.
Proof.
  intros A1 A2 E1 E2.
  assert (A1' : IndexTsx.anyFileUploaded s1' = true).
  { unfold IndexTsx.anyFileUploaded in *. injection E1 as <- <- <-. exact A1. }
  assert (A2' : Part000.anyFileUploaded s2' = true).
  { unfold Part000.anyFileUploaded in *. injection E2 as <- <- <-. exact A2. }
  rewrite (v1_handleAnalyze_accepted env ai s1 A1),
    (v1_handleAnalyze_accepted env ai s1' A1'),
    (v2_handleAnalyze_accepted env s2 A2),
    (v2_handleAnalyze_accepted env s2' A2').
  destruct s1, s1', s2, s2'. simpl in E1, E2.
  injection E1 as -> -> ->. injection E2 as -> -> ->.
  split; reflexivity.
Qed.

Lemma analyze_depends_only_on_the_slots_witness :
  IndexTsx.handleAnalyze Sample.env_ok Sample.client_ok Sample.v1_invoice_only
    = IndexTsx.handleAnalyze Sample.env_ok Sample.client_ok Sample2.v1_invoice_stale /\
  Part000.handleAnalyze Sample.env_offline Sample.v2_invoice_only
    = Part000.handleAnalyze Sample.env_offline Sample2.v2_invoice_stale.
Proof.
  split.
  - exact (proj1 (analyze_depends_only_on_the_slots Sample.env_ok Sample.client_ok
                    Sample.v1_invoice_only Sample2.v1_invoice_stale
                    Sample.v2_invoice_only Sample2.v2_invoice_stale
                    eq_refl eq_refl eq_refl eq_refl)).
  - exact (proj2 (analyze_depends_only_on_the_slots Sample.env_offline Sample.client_ok
                    Sample.v1_invoice_only Sample2.v1_invoice_stale
                    Sample.v2_invoice_only Sample2.v2_invoice_stale
                    eq_refl eq_refl eq_refl eq_refl)).
Defined.

(** ** Whether an attempt comes back *)

(** X5. In [src/index.tsx] an accepted attempt either returns with loading
    off or never settles, loading left on.  It never settles exactly when
    the file of some populated slot cannot be read (the encoding promise has
    no reject path) or the one call it issued stays pending (nothing times
    it out): the spinner then stays for good. *)
Theorem index_tsx_attempt_returns_iff_files_readable
    (env : Env) (ai : Client) (s : IndexTsx.State) :
  IndexTsx.anyFileUploaded s = true ->
  let run := IndexTsx.handleAnalyze env ai s in
  (outcome run = Hang <->
   (exists f, In f (present [IndexTsx.ciFile s; IndexTsx.plFile s; IndexTsx.blFile s]) /\
              readAsDataURL env f = None) \/
   (exists m p, network_calls (trace run) = [(m, p)] /\
                generateContent ai m p = Pending)) /\
  (outcome run = Hang -> IndexTsx.loading (final run) = true) /\
  (outcome run <> Hang ->
   outcome run = Ok tt /\ IndexTsx.loading (final run) = false).
Proof.
  intros Hany. cbv zeta.
  rewrite (v1_handleAnalyze_accepted env ai s Hany).
  destruct s as [ci pl bl ld res e c].
  cbn [IndexTsx.ciFile IndexTsx.plFile IndexTsx.blFile].
  by_cases env;
    (split; [split;
             [intros O;
              first [ discriminate O
                    | left; eexists; split; cycle 1;
                      [eassumption | simpl; auto 6]
                    | right; do 2 eexists; split; [reflexivity | eassumption] ]
             | intros [(x & Hin & Hx)|(m & p & Hn & Hp)];
               [ first [reflexivity | simpl in Hin; intuition (subst; congruence)]
               | first [ reflexivity
                       | simpl in Hn; injection Hn as Hm Hq; subst;
                         match goal with
                         | H1 : generateContent _ _ _ = Pending,
                           H2 : generateContent _ _ _ = _ |- _ =>
                             discriminate (eq_trans (eq_sym H1) H2)
                         end
                       | discriminate Hn ] ] ]
            | split; [intros O; try discriminate O; reflexivity
                     | intros O; try (exfalso; apply O; reflexivity);
                       split; reflexivity]]).
Qed.

Lemma index_tsx_attempt_returns_iff_files_readable_witness :
  outcome (IndexTsx.handleAnalyze Sample2.env_packing_unreadable Sample.client_ok
             Sample2.v1_invoice_and_packing) = Hang /\
  outcome (IndexTsx.handleAnalyze Sample.env_ok Sample2.client_pending
             Sample2.v1_invoice_and_packing) = Hang /\
  outcome (IndexTsx.handleAnalyze Sample.env_ok Sample.client_ok
             Sample2.v1_invoice_and_packing) = Ok tt.
Proof.
  split; [|split].
  - apply (proj1 (index_tsx_attempt_returns_iff_files_readable
                    Sample2.env_packing_unreadable Sample.client_ok
                    Sample2.v1_invoice_and_packing eq_refl)).
    left. exists Sample.packing. split; [simpl; auto | reflexivity].
  - apply (proj1 (index_tsx_attempt_returns_iff_files_readable
                    Sample.env_ok Sample2.client_pending
                    Sample2.v1_invoice_and_packing eq_refl)).
    right. do 2 eexists. split; reflexivity.
  - apply (proj2 (proj2 (index_tsx_attempt_returns_iff_files_readable
                           Sample.env_ok Sample.client_ok
                           Sample2.v1_invoice_and_packing eq_refl))).
    discriminate.
Defined.

(** X6. In the later revision an accepted attempt never stalls on a file:
    the only way for it not to return is that the call it issued stays
    pending, and then loading stays on with nothing displayed.  Whenever
    the call settles (or is never reached) the attempt returns with loading
    off and the status message cleared, whatever the reader and the SDK do,
    and ends either with a non-empty result and no error, or with an empty
    result and the message of a thrown value that was logged to the
    console; that message is non-empty whenever a thrown [Error] carries a
    non-empty message. *)
Theorem revised_attempt_always_ends (env : Env) (s : Part000.State) :
  Part000.anyFileUploaded s = true ->
  let run := Part000.handleAnalyze env s in
  (outcome run = Hang <->
   exists ai m p, GoogleGenAI env (API_KEY env) = inr ai /\
                  generateContent ai m p = Pending /\
                  network_calls (trace run) = [(m, p)]) /\
  (outcome run = Hang ->
   Part000.loading (final run) = true /\
   Part000.result (final run) = empty /\
   Part000.error (final run) = empty) /\
  (outcome run <> Hang ->
   outcome run = Ok tt /\
   Part000.loading (final run) = false /\
   Part000.statusMessage (final run) = empty /\
   ((truthy (Part000.result (final run)) = true /\
     Part000.error (final run) = empty) \/
    (Part000.result (final run) = empty /\
     exists err, In (ConsoleError err) (trace run) /\
                 Part000.error (final run) = Part000.message_of err /\
                 ((forall m, err = ErrorObj m -> truthy m = true) ->
                  truthy (Part000.error (final run)) = true)))).
Proof.
  intros Hany. cbv zeta.
  destruct (v2_attempt_ends env s Hany)
    as [(O & L & S & W)|(O & X & L & R & E)].
  - split; [|split].
    + split; [intros H; congruence|].
      intros (ai & m & p & Hai & Hp & Hn). exfalso.
      revert O Hn Hp. rewrite (v2_handleAnalyze_accepted env s Hany).
      destruct s as [ci pl bl ld sm res e c].
      cbn [Part000.ciFile Part000.plFile Part000.blFile].
      clear W L S. revert Hai.
      by_cases env; intros Hai O Hn Hp; try discriminate O; try discriminate Hn;
        try discriminate Hai;
        injection Hai as <-; simpl in Hn; injection Hn as Hm Hq; subst;
        first [ discriminate Hp
              | match goal with
                | H1 : generateContent _ _ _ = Pending,
                  H2 : generateContent _ _ _ = _ |- _ =>
                    discriminate (eq_trans (eq_sym H1) H2)
                end ].
    + intros H; congruence.
    + intros _. split; [exact O|]. split; [exact L|]. split; [exact S|].
      destruct W as [[R E]|[R (err & Hin & E)]].
      * left. split; assumption.
      * right. split; [exact R|]. exists err. split; [exact Hin|].
        split; [exact E|]. intros Hm. rewrite E. apply v2_message_of_nonempty, Hm.
  - split; [|split].
    + split; [intros _; exact X | intros _; exact O].
    + intros _. split; [exact L|]. split; [exact R | exact E].
    + intros H. contradiction.
Qed.

Lemma revised_attempt_always_ends_witness :
  outcome (Part000.handleAnalyze Sample.env_unreadable Sample.v2_invoice_only) = Ok tt /\
  Part000.loading (final (Part000.handleAnalyze Sample.env_unreadable
                            Sample.v2_invoice_only)) = false /\
  outcome (Part000.handleAnalyze Sample2.env_pending Sample.v2_invoice_only) = Hang /\
  Part000.loading (final (Part000.handleAnalyze Sample2.env_pending
                            Sample.v2_invoice_only)) = true.
Proof.
  assert (N : outcome (Part000.handleAnalyze Sample.env_unreadable
                         Sample.v2_invoice_only) <> Hang) by discriminate.
  destruct (proj2 (proj2 (revised_attempt_always_ends Sample.env_unreadable
                            Sample.v2_invoice_only eq_refl)) N) as [O [L _]].
  assert (P : outcome (Part000.handleAnalyze Sample2.env_pending
                         Sample.v2_invoice_only) = Hang).
  { apply (proj1 (revised_attempt_always_ends Sample2.env_pending
                    Sample.v2_invoice_only eq_refl)).
    do 3 eexists. split; [reflexivity|]. split; reflexivity. }
  destruct (proj1 (proj2 (revised_attempt_always_ends Sample2.env_pending
                            Sample.v2_invoice_only eq_refl)) P) as [L' _].
  exact (conj O (conj L (conj P L'))).
Defined.

(** X7. In the later revision, when the file of any populated slot cannot
    be read, the attempt stops there: no network call is issued even if the
    other files were read, the generic error is surfaced, the result stays
    empty and loading is turned off. *)
Theorem revised_unreadable_file_stops_the_attempt
    (env : Env) (ai : Client) (s : Part000.State) (f : File) :
  truthy_opt (API_KEY env) = true ->
  GoogleGenAI env (API_KEY env) = inr ai ->
  In f (present [Part000.ciFile s; Part000.plFile s; Part000.blFile s]) ->
  readAsDataURL env f = None ->
  let run := Part000.handleAnalyze env s in
  outcome run = Ok tt /\
  network_calls (trace run) = [] /\
  Part000.error (final run) = Part000.unexpected_message /\
  Part000.result (final run) = empty /\
  Part000.loading (final run) = false.
Proof.
  intros Hkey Hai Hin Hf. cbv zeta.
  destruct s as [ci pl bl ld sm res e c].
  cbn [Part000.ciFile Part000.plFile Part000.blFile] in Hin.
  run_handler env; simpl in Hin;
    try solve [repeat split];
    exfalso; intuition (subst; congruence).
Qed.

Lemma revised_unreadable_file_stops_the_attempt_witness :
  network_calls (trace (Part000.handleAnalyze Sample2.env_packing_unreadable
                          Sample2.v2_invoice_and_packing)) = [] /\
  file_reads (trace (Part000.handleAnalyze Sample2.env_packing_unreadable
                       Sample2.v2_invoice_and_packing))
    = [Sample.invoice; Sample.packing] /\
  Part000.error (final (Part000.handleAnalyze Sample2.env_packing_unreadable
                          Sample2.v2_invoice_and_packing))
    = "An unexpected error occurred.".
Proof.
  destruct (revised_unreadable_file_stops_the_attempt
              Sample2.env_packing_unreadable Sample.client_ok
              Sample2.v2_invoice_and_packing Sample.packing
              eq_refl eq_refl (or_intror (or_introl eq_refl)) eq_refl)
    as [_ [N [E _]]].
  split; [exact N | split; [reflexivity | exact E]].
Defined.

(** ** Failures of the SDK constructor *)

(** X8. In the later revision, when the credential is present but
    [new GoogleGenAI] throws, the attempt ends before any file is read or
    any call is made: the only effect is the console log, the surfaced error
    is the [catch] block's rendering of the thrown value, the result stays
    empty and loading is turned off. *)
Theorem revised_constructor_failure_is_surfaced
    (env : Env) (err : Thrown) (s : Part000.State) :
  Part000.anyFileUploaded s = true ->
  truthy_opt (API_KEY env) = true ->
  GoogleGenAI env (API_KEY env) = inl err ->
  let run := Part000.handleAnalyze env s in
  outcome run = Ok tt /\
  trace run = [ConsoleError err] /\
  Part000.error (final run) = Part000.message_of err /\
  Part000.result (final run) = empty /\
  Part000.loading (final run) = false.
Proof.
  intros Hany Hkey Hctor. cbv zeta.
  rewrite (v2_handleAnalyze_accepted env s Hany).
  unfold Part000.attempt, try_catch_finally, bind.
  rewrite Hkey, Hctor. cbn -[Part000.message_of]. repeat split.
Qed.

Lemma revised_constructor_failure_is_surfaced_witness :
  trace (Part000.handleAnalyze Sample2.env_sdk_rejects Sample.v2_invoice_only)
    = [ConsoleError (ErrorObj "An API Key must be set when running in a browser")] /\
  Part000.error (final (Part000.handleAnalyze Sample2.env_sdk_rejects
                          Sample.v2_invoice_only))
    = Part000.configuration_error_message.
Proof.
  destruct (revised_constructor_failure_is_surfaced Sample2.env_sdk_rejects
              (ErrorObj "An API Key must be set when running in a browser")
              Sample.v2_invoice_only eq_refl eq_refl eq_refl)
    as [_ [T [E _]]].
  split; [exact T | rewrite E; reflexivity].
Defined.


(** ** Data URLs without a payload *)

(** X10. The handlers do not check the data URL: when the reader hands
    back a URL without a comma for the files in the slots, [split(',')[1]]
    is [undefined], and the request is still sent, each part carrying its
    MIME type and no data. *)
Theorem bare_data_url_is_sent_without_data
    (env : Env) (ai : Client) (s1 : IndexTsx.State) (s2 : Part000.State) :
  IndexTsx.anyFileUploaded s1 = true ->
  Part000.anyFileUploaded s2 = true ->
  truthy_opt (API_KEY env) = true ->
  GoogleGenAI env (API_KEY env) = inr ai ->
  (forall f, exists url, readAsDataURL env f = Some url /\ has_char comma url = false) ->
  network_calls (trace (IndexTsx.handleAnalyze env ai s1))
    = [(IndexTsx.model,
        text IndexTsx.prompt ::
        map (fun f => inlineData None (type f))
          (present [IndexTsx.ciFile s1; IndexTsx.plFile s1; IndexTsx.blFile s1]))] /\
  network_calls (trace (Part000.handleAnalyze env s2))
    = [(Part000.model,
        text Part000.prompt ::
        map (fun f => inlineData None (type f))
          (present [Part000.ciFile s2; Part000.plFile s2; Part000.blFile s2]))].
Proof.
  intros A1 A2 Hkey Hai Hurl.
  rewrite (v1_handleAnalyze_accepted env ai s1 A1),
    (v2_handleAnalyze_accepted env s2 A2).
  destruct s1 as [ci1 pl1 bl1 ld1 r1 e1 c1], s2 as [ci2 pl2 bl2 ld2 sm2 r2 e2 c2].
  cbn [IndexTsx.ciFile IndexTsx.plFile IndexTsx.blFile
       Part000.ciFile Part000.plFile Part000.blFile].
  assert (Hb : forall f, exists url, readAsDataURL env f = Some url /\
                                     base64_of_dataURL url = None).
  { intros f. destruct (Hurl f) as (url & Hr & Hc). exists url.
    split; [exact Hr | apply base64_of_dataURL_undefined, Hc]. }
  split.
  - destruct ci1 as [a|], pl1 as [b|], bl1 as [c|];
      repeat match goal with
             | x : File |- _ =>
                 lazymatch goal with
                 | _ : readAsDataURL env x = _ |- _ => fail
                 | _ => let u := fresh "u" in
                        destruct (Hb x) as (u & ? & ?)
                 end
             end;
      run_attempt;
      repeat match goal with
             | Hr : readAsDataURL env _ = _ |- _ => rewrite Hr; clear Hr
             end;
      repeat match goal with
             | Hx : base64_of_dataURL _ = _ |- _ => rewrite Hx; clear Hx
             end;
      cbn -[IndexTsx.prompt];
      destruct (generateContent ai _ _); reflexivity.
  - destruct ci2 as [a|], pl2 as [b|], bl2 as [c|];
      repeat match goal with
             | x : File |- _ =>
                 lazymatch goal with
                 | _ : readAsDataURL env x = _ |- _ => fail
                 | _ => let u := fresh "u" in
                        destruct (Hb x) as (u & ? & ?)
                 end
             end;
      run_attempt; rewrite Hkey, Hai;
      repeat match goal with
             | Hr : readAsDataURL env _ = _ |- _ => rewrite Hr; clear Hr
             end;
      repeat match goal with
             | Hx : base64_of_dataURL _ = _ |- _ => rewrite Hx; clear Hx
             end;
      cbn -[Part000.prompt];
      destruct (generateContent ai _ _) as [e|[[|ch t]|]|]; reflexivity.
Qed.

Lemma bare_data_url_is_sent_without_data_witness :
  network_calls (trace (IndexTsx.handleAnalyze Sample2.env_bare_url Sample.client_ok
                          Sample.v1_invoice_only))
    = [(IndexTsx.model, [text IndexTsx.prompt; inlineData None "application/pdf"])] /\
  network_calls (trace (Part000.handleAnalyze Sample2.env_bare_url
                          Sample.v2_invoice_only))
    = [(Part000.model, [text Part000.prompt; inlineData None "application/pdf"])].
Proof.
  apply (bare_data_url_is_sent_without_data Sample2.env_bare_url Sample.client_ok
           Sample.v1_invoice_only Sample.v2_invoice_only eq_refl eq_refl eq_refl eq_refl).
  intros f. exists "data:". split; reflexivity.
Defined.

(** ** What the [try] statement does to the cells *)

(** The [try] statement of [src/index.tsx] keeps the slots and the copy
    label; it either stalls without writing anything, or returns with
    loading off having written at most one of result and error. *)
Lemma v1_attempt_cells (env : Env) (ai : Client) (ci pl bl : option File)
    (s : IndexTsx.State) :
  let run := IndexTsx.attempt env ai ci pl bl s in
  IndexTsx.ciFile (final run) = IndexTsx.ciFile s /\
  IndexTsx.plFile (final run) = IndexTsx.plFile s /\
  IndexTsx.blFile (final run) = IndexTsx.blFile s /\
  IndexTsx.copyButtonText (final run) = IndexTsx.copyButtonText s /\
  ((outcome run = Hang /\ final run = s) \/
   (outcome run = Ok tt /\ IndexTsx.loading (final run) = false /\
    (IndexTsx.error (final run) = IndexTsx.error s \/
     IndexTsx.result (final run) = IndexTsx.result s))).
Proof.
  destruct s as [sci spl sbl ld res e c]. cbv zeta.
  by_cases env; repeat (split; [reflexivity|]);
    first [ left; split; reflexivity
          | right; split; [reflexivity|]; split; [reflexivity|];
            first [left; reflexivity | right; reflexivity] ].
Qed.

(** The [try] statement of the later revision keeps the slots and the copy
    label; it either waits on a pending call, having written the status
    text only, or returns with loading off and no status message, having
    written a non-empty result or else an error. *)
Lemma v2_attempt_cells (env : Env) (ci pl bl : option File) (s : Part000.State) :
  let run := Part000.attempt env ci pl bl s in
  Part000.ciFile (final run) = Part000.ciFile s /\
  Part000.plFile (final run) = Part000.plFile s /\
  Part000.blFile (final run) = Part000.blFile s /\
  Part000.copyButtonText (final run) = Part000.copyButtonText s /\
  ((outcome run = Hang /\
    Part000.loading (final run) = Part000.loading s /\
    Part000.result (final run) = Part000.result s /\
    Part000.error (final run) = Part000.error s) \/
   (outcome run = Ok tt /\
    Part000.loading (final run) = false /\
    Part000.statusMessage (final run) = empty /\
    (Part000.error (final run) = Part000.error s \/
     Part000.result (final run) = Part000.result s))).
Proof.
  destruct s as [sci spl sbl ld sm res e c]. cbv zeta.
  by_cases env; repeat (split; [reflexivity|]);
    first [ left; (split; [reflexivity|]); (split; [reflexivity|]);
            split; reflexivity
          | right; split; [reflexivity|]; split; [reflexivity|];
            split; [reflexivity|];
            first [left; reflexivity | right; reflexivity] ].
Qed.

(** ** Ready for the next attempt *)



(** ** File selection: what it touches and what it shows *)

(** X12. A change event on one slot never touches the other two slots, the
    loading flag or the copy label (nor the status message), has no effect
    on the outside world and always returns. *)
Theorem change_touches_only_its_slot_and_the_messages
    (slot : Slot) (files : option (list File))
    (s1 : IndexTsx.State) (s2 : Part000.State) :
  let run1 := IndexTsx.onChange slot files s1 in
  let run2 := Part000.onChange slot files s2 in
  (outcome run1 = Ok tt /\ trace run1 = [] /\
   IndexTsx.loading (final run1) = IndexTsx.loading s1 /\
   IndexTsx.copyButtonText (final run1) = IndexTsx.copyButtonText s1 /\
   (slot <> CI -> IndexTsx.ciFile (final run1) = IndexTsx.ciFile s1) /\
   (slot <> PL -> IndexTsx.plFile (final run1) = IndexTsx.plFile s1) /\
   (slot <> BL -> IndexTsx.blFile (final run1) = IndexTsx.blFile s1)) /\
  (outcome run2 = Ok tt /\ trace run2 = [] /\
   Part000.loading (final run2) = Part000.loading s2 /\
   Part000.copyButtonText (final run2) = Part000.copyButtonText s2 /\
   Part000.statusMessage (final run2) = Part000.statusMessage s2 /\
   (slot <> CI -> Part000.ciFile (final run2) = Part000.ciFile s2) /\
   (slot <> PL -> Part000.plFile (final run2) = Part000.plFile s2) /\
   (slot <> BL -> Part000.blFile (final run2) = Part000.blFile s2)).
Proof.
  cbv zeta. destruct slot, files as [[|f l]|];
    repeat split; try reflexivity; intros H; congruence.
Qed.

(** X13. A change event with an empty file list (the picker was dismissed).
    In [src/index.tsx] the slot is emptied: its input shows the upload
    prompt again, nothing is on screen any more, and when no other slot is
    populated the analyze button becomes disabled.  In the later revision
    the event changes nothing: the page renders as before. *)
Theorem dismissed_picker_empties_the_slot_in_index_tsx
    (slot : Slot) (s1 : IndexTsx.State) (s2 : Part000.State) :
  let v1 := IndexTsxView.App (final (IndexTsx.onChange slot (Some []) s1)) in
  (nth_error (IndexTsxView.inputs v1) (slot_index slot)
     = nth_error (IndexTsxView.inputs (IndexTsxView.App IndexTsx.initial))
         (slot_index slot) /\
   IndexTsxView.alert v1 = None /\
   IndexTsxView.results v1 = None /\
   ((forall other, other <> slot ->
       nth_error (IndexTsxView.inputs (IndexTsxView.App s1)) (slot_index other)
       = nth_error (IndexTsxView.inputs (IndexTsxView.App IndexTsx.initial))
           (slot_index other)) ->
    IndexTsxView.button_disabled v1 = true)) /\
  Part000View.App (final (Part000.onChange slot (Some []) s2)) = Part000View.App s2.
Proof.
  cbv zeta. split; [|destruct slot; reflexivity].
  destruct s1 as [ci pl bl ld res e c].
  destruct slot; (split; [reflexivity|]); (split; [reflexivity|]);
    (split; [reflexivity|]); intros H.
  - pose proof (H PL ltac:(discriminate)) as HP.
    pose proof (H BL ltac:(discriminate)) as HB.
    destruct pl, bl; try discriminate HP; try discriminate HB. reflexivity.
  - pose proof (H CI ltac:(discriminate)) as HC.
    pose proof (H BL ltac:(discriminate)) as HB.
    destruct ci, bl; try discriminate HC; try discriminate HB. reflexivity.
  - pose proof (H CI ltac:(discriminate)) as HC.
    pose proof (H PL ltac:(discriminate)) as HP.
    destruct ci, pl; try discriminate HC; try discriminate HP. reflexivity.
Qed.

(** X14. After a file is selected in a slot, that slot's input is marked
    selected and shows the file's name ([src/index.tsx]), or its name and
    its size in KB (later revision); the other two inputs render as they
    did. *)
Theorem selected_file_is_shown_in_its_input
    (slot : Slot) (f : File) (rest : list File)
    (s1 : IndexTsx.State) (s2 : Part000.State) :
  let v1 := IndexTsxView.App (final (IndexTsx.onChange slot (Some (f :: rest)) s1)) in
  let v2 := Part000View.App (final (Part000.onChange slot (Some (f :: rest)) s2)) in
  (option_map IndexTsxView.body (nth_error (IndexTsxView.inputs v1) (slot_index slot))
     = Some [name f] /\
   option_map IndexTsxView.selected (nth_error (IndexTsxView.inputs v1) (slot_index slot))
     = Some true /\
   forall other, other <> slot ->
     nth_error (IndexTsxView.inputs v1) (slot_index other)
     = nth_error (IndexTsxView.inputs (IndexTsxView.App s1)) (slot_index other)) /\
  (option_map Part000View.body (nth_error (Part000View.inputs v2) (slot_index slot))
     = Some [name f; Part000View.size_text f] /\
   option_map Part000View.selected (nth_error (Part000View.inputs v2) (slot_index slot))
     = Some true /\
   forall other, other <> slot ->
     nth_error (Part000View.inputs v2) (slot_index other)
     = nth_error (Part000View.inputs (Part000View.App s2)) (slot_index other)).
Proof.
  cbv zeta. destruct slot; (split; (split; [reflexivity|]); (split; [reflexivity|]));
    intros other H; destruct other; try congruence; reflexivity.
Qed.

(** ** The size shown for a selected file *)

Lemma tenths_bounds (num : nat) :
  1024 * toFixed1_tenths num 1024 <= 10 * num + 512 /\
  10 * num + 512 < 1024 * (toFixed1_tenths num 1024 + 1).
Proof.
  unfold toFixed1_tenths.
  pose proof (Nat.div_mod_eq (2 * 10 * num + 1024) (2 * 1024)) as E.
  pose proof (Nat.mod_upper_bound (2 * 10 * num + 1024) (2 * 1024)
                ltac:(discriminate)) as U.
  lia.
Qed.

(** X15. The size the later revision shows next to a file name is the
    file's size in units of 1024 bytes rounded to the nearest tenth, a tie
    going up: the tenths [n] shown satisfy
    [1024 n <= 10 size + 512 < 1024 (n + 1)].  It never decreases when the
    size grows, a whole number [k] of KiB is shown as [k.0], and every file
    of at most 51 bytes is shown as [0.0 KB].  (For sizes below [2^53], which
    a double holds exactly.) *)
Theorem size_text_is_size_in_kb_to_the_nearest_tenth (f g : File) :
  (N.of_nat (size f) < 2 ^ 53)%N ->
  (N.of_nat (size g) < 2 ^ 53)%N ->
  let n := toFixed1_tenths (size f) 1024 in
  Part000View.size_text f
    = (string_of_nat (n / 10) ++ "." ++ string_of_nat (n mod 10) ++ " KB")%string /\
  (1024 * n <= 10 * size f + 512 /\ 10 * size f + 512 < 1024 * (n + 1)) /\
  (size f <= size g -> n <= toFixed1_tenths (size g) 1024) /\
  (forall k, size f = 1024 * k -> n = 10 * k) /\
  (size f <= 51 -> Part000View.size_text f = "0.0 KB").
Proof.
  intros _ _ n. subst n.
  pose proof (tenths_bounds (size f)) as [Lf Uf].
  pose proof (tenths_bounds (size g)) as [Lg Ug].
  split; [|split; [|split; [|split]]].
  - unfold Part000View.size_text, toFixed1. rewrite !append_assoc. reflexivity.
  - split; assumption.
  - intros Hle. lia.
  - intros k Hk. lia.
  - intros Hs.
    assert (Z : toFixed1_tenths (size f) 1024 = 0) by lia.
    unfold Part000View.size_text, toFixed1. rewrite Z. reflexivity.
Qed.

Lemma size_text_is_size_in_kb_to_the_nearest_tenth_witness :
  Part000View.size_text Sample2.two_kib = "2.0 KB" /\
  Part000View.size_text Sample2.quarter_kib = "0.3 KB" /\
  Part000View.size_text Sample.invoice = "0.0 KB".
Proof.
  assert (B : forall x, In x [Sample2.two_kib; Sample2.quarter_kib; Sample.invoice] ->
                        (N.of_nat (size x) < 2 ^ 53)%N).
  { intros x [<-|[<-|[<-|[]]]]; reflexivity. }
  split; [|split].
  - rewrite (proj1 (size_text_is_size_in_kb_to_the_nearest_tenth
                      Sample2.two_kib Sample.invoice
                      (B _ (or_introl eq_refl))
                      (B _ (or_intror (or_intror (or_introl eq_refl)))))).
    reflexivity.
  - rewrite (proj1 (size_text_is_size_in_kb_to_the_nearest_tenth
                      Sample2.quarter_kib Sample.invoice
                      (B _ (or_intror (or_introl eq_refl)))
                      (B _ (or_intror (or_intror (or_introl eq_refl)))))).
    reflexivity.
  - apply (size_text_is_size_in_kb_to_the_nearest_tenth
             Sample.invoice Sample.invoice
             (B _ (or_intror (or_intror (or_introl eq_refl))))
             (B _ (or_intror (or_intror (or_introl eq_refl))))).
    simpl. lia.
Defined.

(** * Further properties of the mounted component *)

Lemma v1_onChange_cells (slot : Slot) (files : option (list File)) (s : IndexTsx.State) :
  IndexTsx.copyButtonText (final (IndexTsx.onChange slot files s))
    = IndexTsx.copyButtonText s /\
  (final (IndexTsx.onChange slot files s) = s \/
   (IndexTsx.result (final (IndexTsx.onChange slot files s)) = Some empty /\
    IndexTsx.error (final (IndexTsx.onChange slot files s)) = empty)).
Proof.
  destruct slot, files as [fl|]; split; try reflexivity;
    first [left; reflexivity | right; split; reflexivity].
Qed.

Lemma v2_onChange_cells (slot : Slot) (files : option (list File)) (s : Part000.State) :
  Part000.copyButtonText (final (Part000.onChange slot files s))
    = Part000.copyButtonText s /\
  Part000.loading (final (Part000.onChange slot files s)) = Part000.loading s /\
  Part000.statusMessage (final (Part000.onChange slot files s))
    = Part000.statusMessage s /\
  (final (Part000.onChange slot files s) = s \/
   (Part000.result (final (Part000.onChange slot files s)) = empty /\
    Part000.error (final (Part000.onChange slot files s)) = empty)).
Proof.
  destruct slot, files as [[|f l]|]; repeat (split; [reflexivity|]);
    first [left; reflexivity | right; split; reflexivity].
Qed.

(** With a result on screen the copy handler either throws at the
    clipboard and changes nothing, or changes the label only and arms
    exactly one timer. *)
Lemma v1_handleCopy_cells (nav : Navigator) (s : IndexTsx.State) :
  truthy_opt (IndexTsx.result s) = true ->
  (final (IndexTsx.handleCopy nav s) = s /\
   trace (IndexTsx.handleCopy nav s) = []) \/
  (IndexTsx.result (final (IndexTsx.handleCopy nav s)) = IndexTsx.result s /\
   IndexTsx.error (final (IndexTsx.handleCopy nav s)) = IndexTsx.error s /\
   IndexTsx.copyButtonText (final (IndexTsx.handleCopy nav s)) = "Copied!" /\
   flat_map (fun e => match e with SetTimeout cb _ => [cb] | _ => [] end)
     (trace (IndexTsx.handleCopy nav s)) = [ResetCopyButtonText]).
Proof.
  destruct s as [ci pl bl ld [[|ch r]|] e c]; simpl; intros T;
    try discriminate T.
  unfold IndexTsx.handleCopy, bind, get. simpl.
  destruct (writeText nav _); [left | right]; repeat split.
Qed.

Lemma v2_handleCopy_cells (nav : Navigator) (s : Part000.State) :
  truthy (Part000.result s) = true ->
  (final (Part000.handleCopy nav s) = s /\
   trace (Part000.handleCopy nav s) = []) \/
  (Part000.result (final (Part000.handleCopy nav s)) = Part000.result s /\
   Part000.error (final (Part000.handleCopy nav s)) = Part000.error s /\
   Part000.statusMessage (final (Part000.handleCopy nav s)) = Part000.statusMessage s /\
   Part000.copyButtonText (final (Part000.handleCopy nav s)) = "Copied!" /\
   flat_map (fun e => match e with SetTimeout cb _ => [cb] | _ => [] end)
     (trace (Part000.handleCopy nav s)) = [ResetCopyButtonText]).
Proof.
  destruct s as [ci pl bl ld sm [|ch r] e c]; simpl; intros T;
    try discriminate T.
  unfold Part000.handleCopy, bind, get. simpl.
  destruct (writeText nav _); [left | right]; repeat split.
Qed.

(** Each event keeps the three invariants together. *)
Lemma v1_fire_keeps_screen (ev : IndexTsx.Event) (u u' : IndexTsx.UI) :
  v1_one_at_a_time u -> v1_label_ok u -> v1_screen_ok u ->
  IndexTsx.fire ev u = Some u' ->
  v1_label_ok u' /\ v1_screen_ok u'.
Proof.
  intros One Lab [S1 S2] F.
  unfold v1_label_ok, v1_screen_ok in *.
  destruct ev as [slot files| |env ai|nav|]; simpl in F.
  - injection F as <-. cbn [IndexTsx.cells IndexTsx.in_flight IndexTsx.timers].
    destruct (v1_onChange_cells slot files (IndexTsx.cells u)) as [C [E|[R E]]].
    + rewrite E. auto.
    + rewrite C, R, E. simpl. auto.
  - destruct (IndexTsx.analyze_disabled (IndexTsx.cells u)) eqn:D; [discriminate|].
    unfold IndexTsx.analyze_disabled in D. apply orb_false_iff in D as [A _].
    apply negb_false_iff in A.
    rewrite (v1_any_file_passes_guard _ A) in F. injection F as <-.
    simpl. auto.
  - destruct (IndexTsx.in_flight u) as [|[[ci pl] bl] rest] eqn:E; [discriminate|].
    destruct (S2 ltac:(discriminate)) as [R0 E0].
    assert (Hrest : rest = []).
    { destruct One as [H|[[r H] _]]; congruence. }
    destruct (v1_attempt_cells env ai ci pl bl (IndexTsx.cells u))
      as (_ & _ & _ & C & [[O Fin]|[O [_ W]]]);
      rewrite O in F; injection F as <-;
      cbn [IndexTsx.cells IndexTsx.in_flight IndexTsx.timers].
    + rewrite Fin. split; [exact Lab|]. split; [exact S1|]. intros _. auto.
    + rewrite C. split; [exact Lab|]. subst rest. split; [|intros N; contradiction].
      destruct W as [W|W]; rewrite W; [right; exact E0 | left; rewrite R0; reflexivity].
  - destruct (truthy_opt (IndexTsx.result (IndexTsx.cells u))) eqn:T; [|discriminate].
    injection F as <-. cbn [IndexTsx.cells IndexTsx.in_flight IndexTsx.timers].
    assert (S1' : truthy_opt (IndexTsx.result (IndexTsx.cells u)) = false \/
                  IndexTsx.error (IndexTsx.cells u) = empty).
    { destruct S1 as [X|X]; [discriminate X | right; exact X]. }
    destruct (v1_handleCopy_cells nav _ T) as [[Fin Tr]|(R & E & C & Tm)].
    + rewrite Fin, Tr. simpl. rewrite app_nil_r. split; [exact Lab|].
      split; [exact S1' | exact S2].
    + rewrite R, E, C, Tm. split.
      * right. split; [reflexivity|]. destruct (IndexTsx.timers u); discriminate.
      * split; [exact S1' | exact S2].
  - destruct (IndexTsx.timers u) as [|cb rest]; [discriminate|].
    injection F as <-. destruct cb. simpl. auto.
Qed.

Lemma v2_fire_keeps_screen (ev : Part000.Event) (u u' : Part000.UI) :
  v2_one_at_a_time u -> v2_label_ok u -> v2_screen_ok u ->
  Part000.fire ev u = Some u' ->
  v2_label_ok u' /\ v2_screen_ok u'.
Proof.
  intros One Lab (S1 & S2 & S3) F.
  unfold v2_label_ok, v2_screen_ok in *.
  destruct ev as [slot files| |env|nav|]; simpl in F.
  - injection F as <-. cbn [Part000.cells Part000.in_flight Part000.timers].
    destruct (v2_onChange_cells slot files (Part000.cells u)) as (C & L & M & [E|[R E]]).
    + rewrite E. auto.
    + rewrite C, L, M, R, E. auto.
  - destruct (Part000.analyze_disabled (Part000.cells u)) eqn:D; [discriminate|].
    unfold Part000.analyze_disabled in D. apply orb_false_iff in D as [A _].
    apply negb_false_iff in A.
    rewrite (v2_any_file_passes_guard _ A) in F. injection F as <-.
    simpl. repeat split; auto. discriminate.
  - destruct (Part000.in_flight u) as [|[[ci pl] bl] rest] eqn:E; [discriminate|].
    destruct (S2 ltac:(discriminate)) as [R0 E0].
    assert (Hrest : rest = []).
    { destruct One as [H|[[r H] _]]; congruence. }
    destruct (v2_attempt_cells env ci pl bl (Part000.cells u))
      as (_ & _ & _ & C & [(O & L & R & Er)|(O & L & M & W)]);
      rewrite O in F; injection F as <-;
      cbn [Part000.cells Part000.in_flight Part000.timers];
      rewrite C; (split; [exact Lab|]); subst rest.
    + rewrite R, Er, L. split; [left; exact R0|]. split; [intros _; auto|].
      intros K. destruct One as [H|[_ H]]; congruence.
    + split; [|split; [intros N; contradiction | intros _; exact M]].
      destruct W as [W|W]; rewrite W; [right; exact E0 | left; exact R0].
  - destruct (truthy (Part000.result (Part000.cells u))) eqn:T; [|discriminate].
    injection F as <-. cbn [Part000.cells Part000.in_flight Part000.timers].
    destruct (v2_handleCopy_cells nav _ T) as [[Fin Tr]|(R & E & M & C & Tm)].
    + rewrite Fin, Tr. simpl. rewrite app_nil_r. split; [exact Lab|].
      split; [exact S1 | split; [exact S2 | exact S3]].
    + rewrite R, E, M, C, Tm, v2_handleCopy_keeps_loading.
      split; [|split; [exact S1 | split; [exact S2 | exact S3]]].
      right. split; [reflexivity|]. destruct (Part000.timers u); discriminate.
  - destruct (Part000.timers u) as [|cb rest]; [discriminate|].
    injection F as <-. destruct cb. simpl. auto.
Qed.

Lemma v1_reachable_keeps_screen (evs : list IndexTsx.Event) :
  forall u u', v1_one_at_a_time u -> v1_label_ok u -> v1_screen_ok u ->
               IndexTsx.fire_all evs u = Some u' ->
               v1_label_ok u' /\ v1_screen_ok u'.
Proof.
  induction evs as [|ev evs IH]; simpl; intros u u' One Lab Scr F.
  - injection F as <-. split; assumption.
  - destruct (IndexTsx.fire ev u) as [u1|] eqn:E; [|discriminate].
    destruct (v1_fire_keeps_screen ev u u1 One Lab Scr E) as [Lab1 Scr1].
    exact (IH u1 u' (v1_fire_preserves ev u u1 One E) Lab1 Scr1 F).
Qed.

Lemma v2_reachable_keeps_screen (evs : list Part000.Event) :
  forall u u', v2_one_at_a_time u -> v2_label_ok u -> v2_screen_ok u ->
               Part000.fire_all evs u = Some u' ->
               v2_label_ok u' /\ v2_screen_ok u'.
Proof.
  induction evs as [|ev evs IH]; simpl; intros u u' One Lab Scr F.
  - injection F as <-. split; assumption.
  - destruct (Part000.fire ev u) as [u1|] eqn:E; [|discriminate].
    destruct (v2_fire_keeps_screen ev u u1 One Lab Scr E) as [Lab1 Scr1].
    exact (IH u1 u' (v2_fire_preserves ev u u1 One E) Lab1 Scr1 F).
Qed.

Lemma v1_initial_screen :
  v1_one_at_a_time IndexTsx.initialUI /\ v1_label_ok IndexTsx.initialUI /\
  v1_screen_ok IndexTsx.initialUI.
Proof.
  split; [left; reflexivity|]. split; [left; reflexivity|].
  split; [left; reflexivity | intros N; contradiction].
Qed.

Lemma v2_initial_screen :
  v2_one_at_a_time Part000.initialUI /\ v2_label_ok Part000.initialUI /\
  v2_screen_ok Part000.initialUI.
Proof.
  split; [left; reflexivity|]. split; [left; reflexivity|].
  split; [left; reflexivity|]. split; [intros N; contradiction | reflexivity].
Qed.

(** ** What is on screen *)

(** X16. In every state the mounted component can reach, a result and an
    error are never displayed together, and while an attempt is in flight
    neither is displayed; in the later revision the status message is empty
    whenever loading is off. *)
Theorem result_and_error_are_never_shown_together
    (u1 : IndexTsx.UI) (u2 : Part000.UI) :
  IndexTsx.reachable u1 ->
  Part000.reachable u2 ->
  let v1 := IndexTsxView.App (IndexTsx.cells u1) in
  let v2 := Part000View.App (Part000.cells u2) in
  ((IndexTsxView.alert v1 = None \/ IndexTsxView.results v1 = None) /\
   (IndexTsx.in_flight u1 <> [] ->
    IndexTsxView.alert v1 = None /\ IndexTsxView.results v1 = None)) /\
  ((Part000View.alert v2 = None \/ Part000View.results v2 = None) /\
   (Part000.in_flight u2 <> [] ->
    Part000View.alert v2 = None /\ Part000View.results v2 = None) /\
   (Part000View.spinner v2 = false ->
    Part000.statusMessage (Part000.cells u2) = empty)).
Proof.
  intros [evs1 R1] [evs2 R2]. cbv zeta.
  destruct v1_initial_screen as (O1 & L1 & S1).
  destruct v2_initial_screen as (O2 & L2 & S2).
  destruct (v1_reachable_keeps_screen evs1 _ _ O1 L1 S1 R1) as [_ [A1 B1]].
  destruct (v2_reachable_keeps_screen evs2 _ _ O2 L2 S2 R2) as [_ (A2 & B2 & C2)].
  unfold IndexTsxView.App, Part000View.App.
  cbn [IndexTsxView.alert IndexTsxView.results Part000View.alert
       Part000View.results Part000View.spinner].
  split; [split|split; [|split]].
  - destruct A1 as [H|H]; [right | left; rewrite H; reflexivity].
    destruct (IndexTsx.result (IndexTsx.cells u1)) as [[|c r]|];
      try reflexivity; discriminate H.
  - intros N. destruct (B1 N) as [R E]. rewrite R, E. split; reflexivity.
  - destruct A2 as [H|H]; rewrite H; [right | left]; reflexivity.
  - intros N. destruct (B2 N) as [R E]. rewrite R, E. split; reflexivity.
  - exact C2.
Qed.

Lemma result_and_error_are_never_shown_together_witness :
  IndexTsxView.alert (IndexTsxView.App (IndexTsx.cells Sample.v1_busy)) = None /\
  IndexTsxView.results (IndexTsxView.App (IndexTsx.cells Sample.v1_busy)) = None /\
  Part000View.alert (Part000View.App (Part000.cells Sample.v2_busy)) = None /\
  Part000View.results (Part000View.App (Part000.cells Sample.v2_busy)) = None.
Proof.
  assert (R1 : IndexTsx.reachable Sample.v1_busy).
  { exists [IndexTsx.Change CI (Some [Sample.invoice]); IndexTsx.ClickAnalyze].
    reflexivity. }
  assert (R2 : Part000.reachable Sample.v2_busy).
  { exists [Part000.Change CI (Some [Sample.invoice]); Part000.ClickAnalyze].
    reflexivity. }
  destruct (result_and_error_are_never_shown_together Sample.v1_busy Sample.v2_busy
              R1 R2) as [[_ B1] [_ [B2 _]]].
  destruct (B1 ltac:(discriminate)) as [X1 Y1].
  destruct (B2 ltac:(discriminate)) as [X2 Y2].
  exact (conj X1 (conj Y1 (conj X2 Y2))).
Defined.

(** X17. In every state the mounted component can reach, the copy button
    reads [Copy] or [Copied!], and whenever it reads [Copied!] (in the later
    revision: whenever it draws the check mark) a timer that will put
    [Copy] back is armed: the confirmation cannot stay for good. *)
Theorem copy_confirmation_always_has_a_timer
    (u1 : IndexTsx.UI) (u2 : Part000.UI) :
  IndexTsx.reachable u1 ->
  Part000.reachable u2 ->
  (forall r, IndexTsxView.results (IndexTsxView.App (IndexTsx.cells u1)) = Some r ->
     IndexTsxView.copy_label r = "Copy" \/
     (IndexTsxView.copy_label r = "Copied!" /\ IndexTsx.timers u1 <> [])) /\
  (forall r, Part000View.results (Part000View.App (Part000.cells u2)) = Some r ->
     (Part000View.copy_label r = "Copy" /\ Part000View.check_icon r = false) \/
     (Part000View.copy_label r = "Copied!" /\ Part000View.check_icon r = true /\
      Part000.timers u2 <> [])) /\
  v1_label_ok u1 /\ v2_label_ok u2.
Proof.
  intros [evs1 R1] [evs2 R2].
  destruct v1_initial_screen as (O1 & L1 & S1).
  destruct v2_initial_screen as (O2 & L2 & S2).
  destruct (v1_reachable_keeps_screen evs1 _ _ O1 L1 S1 R1) as [Lab1 _].
  destruct (v2_reachable_keeps_screen evs2 _ _ O2 L2 S2 R2) as [Lab2 _].
  split; [|split; [|split; assumption]].
  - intros r. unfold IndexTsxView.App. cbn [IndexTsxView.results].
    destruct (IndexTsx.result (IndexTsx.cells u1)) as [[|c t]|]; try discriminate.
    intros [= <-]. exact Lab1.
  - intros r. unfold Part000View.App. cbn [Part000View.results].
    destruct (truthy (Part000.result (Part000.cells u2))); [|discriminate].
    intros [= <-]. cbn [Part000View.copy_label Part000View.check_icon].
    destruct Lab2 as [H|[H T]]; rewrite H; [left | right]; repeat split. exact T.
Qed.

Lemma copy_confirmation_always_has_a_timer_witness :
  IndexTsx.timers Sample2.v1_copied <> [] /\ Part000.timers Sample2.v2_copied <> [].
Proof.
  assert (R1 : IndexTsx.reachable Sample2.v1_copied).
  { exists [IndexTsx.Change CI (Some [Sample.invoice]); IndexTsx.ClickAnalyze;
            IndexTsx.Settle Sample.env_ok Sample.client_ok;
            IndexTsx.ClickCopy Sample2.navigator].
    reflexivity. }
  assert (R2 : Part000.reachable Sample2.v2_copied).
  { exists [Part000.Change CI (Some [Sample.invoice]); Part000.ClickAnalyze;
            Part000.Settle Sample.env_ok; Part000.ClickCopy Sample2.navigator].
    reflexivity. }
  destruct (copy_confirmation_always_has_a_timer Sample2.v1_copied Sample2.v2_copied
              R1 R2) as [V1 [V2 _]].
  destruct (V1 _ eq_refl) as [H|[_ T1]]; [discriminate H|].
  destruct (V2 _ eq_refl) as [[H _]|[_ [_ T2]]]; [discriminate H|].
  exact (conj T1 T2).
Defined.

(** X18. Timers are never cancelled: when the copy button is clicked twice
    (in a browser where [writeText] can be called) and the first timer then
    fires, the label is back to [Copy] although the timer armed by the
    second click is still pending, so the second confirmation is cut
    short. *)
Theorem second_copy_confirmation_is_cut_short
    (nav : Navigator) (u1 : IndexTsx.UI) (u2 : Part000.UI) :
  truthy_opt (IndexTsx.result (IndexTsx.cells u1)) = true ->
  IndexTsx.timers u1 = [] ->
  truthy (Part000.result (Part000.cells u2)) = true ->
  Part000.timers u2 = [] ->
  (forall t, writeText nav t = inr tt) ->
  (exists u1',
     IndexTsx.fire_all
       [IndexTsx.ClickCopy nav; IndexTsx.ClickCopy nav; IndexTsx.TimerFires] u1
       = Some u1' /\
     IndexTsx.copyButtonText (IndexTsx.cells u1') = "Copy" /\
     IndexTsx.timers u1' = [ResetCopyButtonText]) /\
  (exists u2',
     Part000.fire_all
       [Part000.ClickCopy nav; Part000.ClickCopy nav; Part000.TimerFires] u2
       = Some u2' /\
     Part000.copyButtonText (Part000.cells u2') = "Copy" /\
     Part000.timers u2' = [ResetCopyButtonText]).
Proof.
  destruct u1 as [[ci1 pl1 bl1 ld1 [[|ch1 r1]|] e1 c1] fl1 tm1];
    destruct u2 as [[ci2 pl2 bl2 ld2 sm2 [|ch2 r2] e2 c2] fl2 tm2];
    simpl; intros T1 E1 T2 E2 W; try discriminate T1; try discriminate T2.
  subst tm1 tm2.
  unfold IndexTsx.handleCopy, Part000.handleCopy, bind, get. simpl.
  rewrite !W. simpl. rewrite !W. simpl.
  split; eexists; repeat split.
Qed.

Lemma second_copy_confirmation_is_cut_short_witness :
  (exists u1',
     IndexTsx.fire_all
       [IndexTsx.ClickCopy Sample2.navigator; IndexTsx.ClickCopy Sample2.navigator;
        IndexTsx.TimerFires]
       (IndexTsx.mkUI Sample.v1_invoice_only [] []) = Some u1' /\
     IndexTsx.copyButtonText (IndexTsx.cells u1') = "Copy" /\
     IndexTsx.timers u1' = [ResetCopyButtonText]).
Proof.
  exact (proj1 (second_copy_confirmation_is_cut_short Sample2.navigator
                  (IndexTsx.mkUI Sample.v1_invoice_only [] [])
                  (Part000.mkUI Sample.v2_invoice_only [] [])
                  eq_refl eq_refl eq_refl eq_refl (fun _ => eq_refl))).
Defined.

(** ** A file picked while the request is in flight *)

(** What the [try] statement writes to the result and error cells, and
    what it does to the outside world, depends on the state it resumes in
    through those two cells only. *)
Lemma v1_attempt_ignores_other_cells (env : Env) (ai : Client)
    (ci pl bl : option File) (s s' : IndexTsx.State) :
  IndexTsx.result s = IndexTsx.result s' ->
  IndexTsx.error s = IndexTsx.error s' ->
  outcome (IndexTsx.attempt env ai ci pl bl s)
    = outcome (IndexTsx.attempt env ai ci pl bl s') /\
  trace (IndexTsx.attempt env ai ci pl bl s)
    = trace (IndexTsx.attempt env ai ci pl bl s') /\
  IndexTsx.result (final (IndexTsx.attempt env ai ci pl bl s))
    = IndexTsx.result (final (IndexTsx.attempt env ai ci pl bl s')) /\
  IndexTsx.error (final (IndexTsx.attempt env ai ci pl bl s))
    = IndexTsx.error (final (IndexTsx.attempt env ai ci pl bl s')).
Proof.
  destruct s, s'. simpl. intros -> ->. by_cases env; repeat split.
Qed.

Lemma v2_attempt_ignores_other_cells (env : Env)
    (ci pl bl : option File) (s s' : Part000.State) :
  Part000.result s = Part000.result s' ->
  Part000.error s = Part000.error s' ->
  outcome (Part000.attempt env ci pl bl s)
    = outcome (Part000.attempt env ci pl bl s') /\
  trace (Part000.attempt env ci pl bl s) = trace (Part000.attempt env ci pl bl s') /\
  Part000.result (final (Part000.attempt env ci pl bl s))
    = Part000.result (final (Part000.attempt env ci pl bl s')) /\
  Part000.error (final (Part000.attempt env ci pl bl s))
    = Part000.error (final (Part000.attempt env ci pl bl s')).
Proof.
  destruct s, s'. simpl. intros -> ->. by_cases env; repeat split.
Qed.

Lemma v2_settle_cells (env : Env) (u : Part000.UI)
    (ci pl bl : option File) (rest : list (option File * option File * option File)) :
  Part000.in_flight u = (ci, pl, bl) :: rest ->
  exists u', Part000.fire (Part000.Settle env) u = Some u' /\
             Part000.cells u' = final (Part000.attempt env ci pl bl (Part000.cells u)) /\
             (outcome (Part000.attempt env ci pl bl (Part000.cells u)) <> Hang ->
              Part000.in_flight u' = rest).
Proof.
  intros E. simpl. rewrite E.
  destruct (outcome _); eexists; split; try reflexivity; split; try reflexivity;
    intros N; try reflexivity; contradiction.
Qed.

Lemma v1_settle_cells (env : Env) (ai : Client) (u : IndexTsx.UI)
    (ci pl bl : option File) (rest : list (option File * option File * option File)) :
  IndexTsx.in_flight u = (ci, pl, bl) :: rest ->
  exists u', IndexTsx.fire (IndexTsx.Settle env ai) u = Some u' /\
             IndexTsx.cells u' = final (IndexTsx.attempt env ai ci pl bl (IndexTsx.cells u)).
Proof.
  intros E. simpl. rewrite E.
  destruct (outcome _); eexists; split; reflexivity.
Qed.

(** X19. The request runs on the files captured by the click.  When the
    user changes a slot while the request is in flight, the attempt goes on
    as if nothing had been picked: it has the same effects on the outside
    world and puts the same result and the same error on screen as an
    uninterrupted run from the state at the click, while the slot shows the
    new choice.  The answer displayed then belongs to the earlier files.
    (In the later revision, when the run returns, nothing is left in flight
    and loading is off.) *)
Theorem file_picked_in_flight_does_not_change_the_answer
    (env : Env) (ai : Client) (slot : Slot) (files : option (list File))
    (u1 : IndexTsx.UI) (u2 : Part000.UI) :
  IndexTsx.analyze_disabled (IndexTsx.cells u1) = false ->
  IndexTsx.in_flight u1 = [] ->
  Part000.analyze_disabled (Part000.cells u2) = false ->
  Part000.in_flight u2 = [] ->
  (exists u1' picked,
     IndexTsx.fire_all [IndexTsx.ClickAnalyze; IndexTsx.Change slot files] u1
       = Some picked /\
     IndexTsx.fire (IndexTsx.Settle env ai) picked = Some u1' /\
     (let '(ci, pl, bl) := hd (None, None, None) (IndexTsx.in_flight picked) in
      trace (IndexTsx.attempt env ai ci pl bl (IndexTsx.cells picked)))
       = trace (IndexTsx.handleAnalyze env ai (IndexTsx.cells u1)) /\
     IndexTsx.result (IndexTsx.cells u1')
       = IndexTsx.result (final (IndexTsx.handleAnalyze env ai (IndexTsx.cells u1))) /\
     IndexTsx.error (IndexTsx.cells u1')
       = IndexTsx.error (final (IndexTsx.handleAnalyze env ai (IndexTsx.cells u1))) /\
     (IndexTsx.ciFile (IndexTsx.cells u1'), IndexTsx.plFile (IndexTsx.cells u1'),
      IndexTsx.blFile (IndexTsx.cells u1'))
       = (IndexTsx.ciFile (IndexTsx.cells picked), IndexTsx.plFile (IndexTsx.cells picked),
          IndexTsx.blFile (IndexTsx.cells picked))) /\
  (exists u2' picked,
     Part000.fire_all [Part000.ClickAnalyze; Part000.Change slot files] u2
       = Some picked /\
     Part000.fire (Part000.Settle env) picked = Some u2' /\
     (let '(ci, pl, bl) := hd (None, None, None) (Part000.in_flight picked) in
      trace (Part000.attempt env ci pl bl (Part000.cells picked)))
       = trace (Part000.handleAnalyze env (Part000.cells u2)) /\
     Part000.result (Part000.cells u2')
       = Part000.result (final (Part000.handleAnalyze env (Part000.cells u2))) /\
     Part000.error (Part000.cells u2')
       = Part000.error (final (Part000.handleAnalyze env (Part000.cells u2))) /\
     (Part000.ciFile (Part000.cells u2'), Part000.plFile (Part000.cells u2'),
      Part000.blFile (Part000.cells u2'))
       = (Part000.ciFile (Part000.cells picked), Part000.plFile (Part000.cells picked),
          Part000.blFile (Part000.cells picked)) /\
     (outcome (Part000.handleAnalyze env (Part000.cells u2)) <> Hang ->
      Part000.in_flight u2' = [] /\
      Part000.loading (Part000.cells u2') = false)).
Proof.
  intros D1 E1 D2 E2.
  unfold IndexTsx.analyze_disabled in D1. unfold Part000.analyze_disabled in D2.
  apply orb_false_iff in D1 as [A1 L1]. apply negb_false_iff in A1.
  apply orb_false_iff in D2 as [A2 L2]. apply negb_false_iff in A2.
  split.
  - cbn [IndexTsx.fire_all IndexTsx.fire].
    unfold IndexTsx.analyze_disabled.
    rewrite A1, L1, (v1_any_file_passes_guard _ A1), E1.
    cbn [negb orb app IndexTsx.cells IndexTsx.in_flight IndexTsx.timers hd].
    rewrite (v1_handleAnalyze_accepted env ai _ A1).
    set (s0 := final (IndexTsx.begin_analysis (IndexTsx.cells u1))).
    set (s1 := final (IndexTsx.onChange slot files s0)).
    assert (R : IndexTsx.result s1 = IndexTsx.result s0 /\
                IndexTsx.error s1 = IndexTsx.error s0).
    { destruct (v1_onChange_cells slot files s0) as [_ [E|[R E]]]; fold s1 in E |- *.
      - rewrite E. split; reflexivity.
      - fold s1 in R. rewrite R, E. split; reflexivity. }
    destruct R as [Rr Re].
    destruct (v1_attempt_ignores_other_cells env ai
                (IndexTsx.ciFile (IndexTsx.cells u1)) (IndexTsx.plFile (IndexTsx.cells u1))
                (IndexTsx.blFile (IndexTsx.cells u1)) s1 s0 Rr Re) as (O & T & Rf & Ef).
    destruct (v1_attempt_cells env ai
                (IndexTsx.ciFile (IndexTsx.cells u1)) (IndexTsx.plFile (IndexTsx.cells u1))
                (IndexTsx.blFile (IndexTsx.cells u1)) s1) as (C & P & B & _).
    destruct (v1_settle_cells env ai
                (IndexTsx.mkUI s1
                   [(IndexTsx.ciFile (IndexTsx.cells u1),
                     IndexTsx.plFile (IndexTsx.cells u1),
                     IndexTsx.blFile (IndexTsx.cells u1))] (IndexTsx.timers u1))
                _ _ _ [] eq_refl) as (u1' & F & Cells).
    exists u1'. eexists. split; [reflexivity|]. split; [exact F|].
    cbn [IndexTsx.cells IndexTsx.in_flight IndexTsx.timers hd] in Cells |- *.
    rewrite Cells, C, P, B. repeat split; assumption.
  - cbn [Part000.fire_all Part000.fire].
    unfold Part000.analyze_disabled.
    rewrite A2, L2, (v2_any_file_passes_guard _ A2), E2.
    cbn [negb orb app Part000.cells Part000.in_flight Part000.timers hd].
    rewrite (v2_handleAnalyze_accepted env _ A2).
    set (s0 := final (Part000.begin_analysis (Part000.cells u2))).
    set (s1 := final (Part000.onChange slot files s0)).
    assert (R : Part000.result s1 = Part000.result s0 /\
                Part000.error s1 = Part000.error s0).
    { destruct (v2_onChange_cells slot files s0) as (_ & _ & _ & [E|[R E]]);
        fold s1 in E |- *.
      - rewrite E. split; reflexivity.
      - fold s1 in R. rewrite R, E. split; reflexivity. }
    destruct R as [Rr Re].
    destruct (v2_attempt_ignores_other_cells env
                (Part000.ciFile (Part000.cells u2)) (Part000.plFile (Part000.cells u2))
                (Part000.blFile (Part000.cells u2)) s1 s0 Rr Re) as (Oe & T & Rf & Ef).
    destruct (v2_attempt_cells env
                (Part000.ciFile (Part000.cells u2)) (Part000.plFile (Part000.cells u2))
                (Part000.blFile (Part000.cells u2)) s1) as (C & P & B & _ & W).
    destruct (v2_settle_cells env
                (Part000.mkUI s1
                   [(Part000.ciFile (Part000.cells u2),
                     Part000.plFile (Part000.cells u2),
                     Part000.blFile (Part000.cells u2))] (Part000.timers u2))
                _ _ _ [] eq_refl) as (u2' & F & Cells & Fl).
    exists u2'. eexists. split; [reflexivity|]. split; [exact F|].
    cbn [Part000.cells Part000.in_flight Part000.timers hd] in Cells, Fl |- *.
    rewrite Cells, C, P, B.
    split; [exact T|]. split; [exact Rf|]. split; [exact Ef|].
    split; [reflexivity|].
    intros N. rewrite <- Oe in N. split; [exact (Fl N)|].
    destruct W as [(O & _)|(_ & L & _)]; [contradiction | exact L].
Qed.

Lemma file_picked_in_flight_does_not_change_the_answer_witness :
  exists u2' picked,
    Part000.fire_all [Part000.ClickAnalyze; Part000.Change PL (Some [Sample.packing])]
      Sample2.v2_ready = Some picked /\
    Part000.fire (Part000.Settle Sample.env_ok) picked = Some u2' /\
    Part000.result (Part000.cells u2') = Sample.answer /\
    Part000.plFile (Part000.cells u2') = Some Sample.packing.
Proof.
  destruct (proj2 (file_picked_in_flight_does_not_change_the_answer
                     Sample.env_ok Sample.client_ok PL (Some [Sample.packing])
                     Sample2.v1_ready Sample2.v2_ready
                     eq_refl eq_refl eq_refl eq_refl))
    as (u2' & picked & F & S & T & R & E & Sl & _).
  exists u2', picked. split; [exact F|]. split; [exact S|].
  split; [rewrite R; reflexivity|].
  injection F as <-. injection Sl as _ P _. rewrite P. reflexivity.
Defined.

(** * How the service's answer reaches the screen *)

(** X20. When the service call is rejected, both revisions return with
    loading off and an empty result, and surface the rejection:
    [src/index.tsx] shows the [Error]'s message as it is; the later
    revision shows it unless it contains [API Key must be set], which it
    replaces by its configuration error.  A rejection that is not an
    [Error] is shown as the revision's generic message. *)
Theorem rejected_call_surfaces_its_message
    (env : Env) (ai : Client) (err : Thrown)
    (s1 : IndexTsx.State) (s2 : Part000.State) :
  IndexTsx.anyFileUploaded s1 = true ->
  Part000.anyFileUploaded s2 = true ->
  truthy_opt (API_KEY env) = true ->
  GoogleGenAI env (API_KEY env) = inr ai ->
  (forall f, readAsDataURL env f <> None) ->
  (forall m p, generateContent ai m p = Rejected err) ->
  let run1 := IndexTsx.handleAnalyze env ai s1 in
  let run2 := Part000.handleAnalyze env s2 in
  (outcome run1 = Ok tt /\ IndexTsx.loading (final run1) = false /\
   IndexTsx.result (final run1) = Some empty /\
   IndexTsx.error (final run1) =
     match err with
     | ErrorObj message => message
     | NonError => "An unexpected error occurred. Please try again."
     end) /\
  (outcome run2 = Ok tt /\ Part000.loading (final run2) = false /\
   Part000.result (final run2) = empty /\
   Part000.error (final run2) =
     match err with
     | ErrorObj message =>
         if includes message "API Key must be set"
         then Part000.configuration_error_message else message
     | NonError => "An unexpected error occurred."
     end).
Proof.
  intros A1 A2 Hkey Hai Hread Hcall. cbv zeta. split.
  - exact (v1_rejected_call env ai err s1 A1 Hread Hcall).
  - exact (v2_rejected_call env ai err s2 A2 Hkey Hai Hread Hcall).
Qed.

Lemma rejected_call_surfaces_its_message_witness :
  IndexTsx.error (final (IndexTsx.handleAnalyze Sample.env_offline Sample.client_offline
                           Sample.v1_invoice_only)) = "Failed to fetch" /\
  Part000.error (final (Part000.handleAnalyze Sample.env_offline
                          Sample.v2_invoice_only)) = "Failed to fetch".
Proof.
  assert (R : forall f, readAsDataURL Sample.env_offline f <> None) by discriminate.
  destruct (rejected_call_surfaces_its_message Sample.env_offline Sample.client_offline
              (ErrorObj "Failed to fetch") Sample.v1_invoice_only Sample.v2_invoice_only
              eq_refl eq_refl eq_refl eq_refl R (fun _ _ => eq_refl))
    as [[_ [_ [_ E1]]] [_ [_ [_ E2]]]].
  split; [exact E1 | rewrite E2; reflexivity].
Defined.

(** X21. When the service call resolves with a non-empty text, both
    revisions return with loading off, the result cell holding exactly that
    text and the error cell empty, and the page shows the text unchanged in
    the results section and no alert. *)
Theorem resolved_text_is_displayed_verbatim
    (env : Env) (ai : Client) (t : string)
    (s1 : IndexTsx.State) (s2 : Part000.State) :
  IndexTsx.anyFileUploaded s1 = true ->
  Part000.anyFileUploaded s2 = true ->
  truthy_opt (API_KEY env) = true ->
  GoogleGenAI env (API_KEY env) = inr ai ->
  (forall f, readAsDataURL env f <> None) ->
  (forall m p, generateContent ai m p = Resolved (Some t)) ->
  truthy t = true ->
  let run1 := IndexTsx.handleAnalyze env ai s1 in
  let run2 := Part000.handleAnalyze env s2 in
  (outcome run1 = Ok tt /\ IndexTsx.loading (final run1) = false /\
   IndexTsx.result (final run1) = Some t /\ IndexTsx.error (final run1) = empty /\
   option_map IndexTsxView.shown (IndexTsxView.results (IndexTsxView.App (final run1)))
     = Some t /\
   IndexTsxView.alert (IndexTsxView.App (final run1)) = None) /\
  (outcome run2 = Ok tt /\ Part000.loading (final run2) = false /\
   Part000.result (final run2) = t /\ Part000.error (final run2) = empty /\
   option_map Part000View.shown (Part000View.results (Part000View.App (final run2)))
     = Some t /\
   Part000View.alert (Part000View.App (final run2)) = None).
Proof.
  intros A1 A2 Hkey Hai Hread Hcall Ht. cbv zeta.
  destruct (v1_resolved_call_stores_text env ai (Some t) s1 A1 Hread Hcall)
    as (O1 & R1 & E1 & L1).
  destruct (v2_resolved_call env ai (Some t) s2 A2 Hkey Hai Hread Hcall)
    as (O2 & L2 & W).
  simpl in W. rewrite Ht in W. destruct W as [R2 E2]. injection R2 as R2.
  unfold IndexTsxView.App, Part000View.App.
  cbn [IndexTsxView.results IndexTsxView.alert Part000View.results Part000View.alert].
  rewrite R1, E1, R2, E2, Ht.
  destruct t as [|c r]; [discriminate Ht|].
  repeat split; assumption.
Qed.

Lemma resolved_text_is_displayed_verbatim_witness :
  IndexTsx.result (final (IndexTsx.handleAnalyze Sample.env_ok Sample.client_ok
                            Sample.v1_invoice_only)) = Some "Invoice Number: 42" /\
  Part000.result (final (Part000.handleAnalyze Sample.env_ok Sample.v2_invoice_only))
    = "Invoice Number: 42".
Proof.
  assert (R : forall f, readAsDataURL Sample.env_ok f <> None) by discriminate.
  destruct (resolved_text_is_displayed_verbatim Sample.env_ok Sample.client_ok
              Sample.answer Sample.v1_invoice_only Sample.v2_invoice_only
              eq_refl eq_refl eq_refl eq_refl R (fun _ _ => eq_refl) eq_refl)
    as [[_ [_ [R1 _]]] [_ [_ [R2 _]]]].
  exact (conj R1 R2).
Defined.

(** X22. In the later revision a call that resolves without text (['']
    or [undefined]) is turned into an error: the result cell stays empty,
    the page shows the empty-response message in its alert and no results
    section, and loading is turned off. *)
Theorem revised_empty_response_is_an_error
    (env : Env) (ai : Client) (t : option string) (s : Part000.State) :
  Part000.anyFileUploaded s = true ->
  truthy_opt (API_KEY env) = true ->
  GoogleGenAI env (API_KEY env) = inr ai ->
  (forall f, readAsDataURL env f <> None) ->
  (forall m p, generateContent ai m p = Resolved t) ->
  truthy_opt t = false ->
  let run := Part000.handleAnalyze env s in
  outcome run = Ok tt /\
  Part000.loading (final run) = false /\
  Part000.result (final run) = empty /\
  Part000.error (final run) = Part000.empty_response_message /\
  Part000View.alert (Part000View.App (final run))
    = Some Part000.empty_response_message /\
  Part000View.results (Part000View.App (final run)) = None.
Proof.
  intros A Hkey Hai Hread Hcall Ht. cbv zeta.
  destruct (v2_resolved_call env ai t s A Hkey Hai Hread Hcall) as (O & L & W).
  rewrite Ht in W. destruct W as [R E].
  unfold Part000View.App. cbn [Part000View.results Part000View.alert].
  rewrite R, E. repeat split; assumption.
Qed.

Lemma revised_empty_response_is_an_error_witness :
  Part000.error (final (Part000.handleAnalyze Sample.env_undefined
                          Sample.v2_invoice_only))
    = "The model returned an empty response. Please try again with clearer documents." /\
  Part000.error (final (Part000.handleAnalyze Sample.env_empty Sample.v2_invoice_only))
    = "The model returned an empty response. Please try again with clearer documents.".
Proof.
  assert (R : forall e f, readAsDataURL (mkEnv (Some "secret") e Sample.reader) f <> None)
    by discriminate.
  destruct (revised_empty_response_is_an_error Sample.env_undefined
              Sample.client_undefined None Sample.v2_invoice_only
              eq_refl eq_refl eq_refl (R _) (fun _ _ => eq_refl) eq_refl)
    as (_ & _ & _ & E1 & _).
  destruct (revised_empty_response_is_an_error Sample.env_empty
              Sample.client_empty (Some empty) Sample.v2_invoice_only
              eq_refl eq_refl eq_refl (R _) (fun _ _ => eq_refl) eq_refl)
    as (_ & _ & _ & E2 & _).
  exact (conj E1 E2).
Defined.
